(** * psims.mzid.writer: the incremental MzIdentML document writer

    A shallow embedding of [psims/mzid/writer.py]: the document sections
    (context managers around one container element), the protein detection
    list's count policy, the tolerance unit policy of
    [spectrum_identification_protocol] and the [providence] section.

    The XML stream, the identity map and the warnings are threaded through an
    explicit state; a raised exception is a result of its own. *)

From Stdlib Require Import ZArith String List.
From Stdlib Require Import Floats.PrimFloat.
From stdpp Require Import gmap strings list fin_maps pretty.

Set Warnings "-inexact-float,-register-all".

(** ** Python values *)

(** Hashable scalars: what is used as a key of the identity map. *)
Inductive scalar :=
| SNone
| SBool (b : bool)
| SInt (n : Z)
| SStr (s : string).

Global Instance scalar_eq_dec : EqDecision scalar.
Proof. solve_decision. Defined.

Definition scalar_encode (s : scalar) : unit + bool + Z + string :=
  match s with
  | SNone => inl (inl (inl tt))
  | SBool b => inl (inl (inr b))
  | SInt n => inl (inr n)
  | SStr s => inr s
  end.

Definition scalar_decode (x : unit + bool + Z + string) : scalar :=
  match x with
  | inl (inl (inl _)) => SNone
  | inl (inl (inr b)) => SBool b
  | inl (inr n) => SInt n
  | inr s => SStr s
  end.

Global Instance scalar_countable : Countable scalar.
Proof. apply (inj_countable' scalar_encode scalar_decode). by intros []. Defined.

(** Values passed around by the writer: scalars, lists and tuples, dicts
    (loosely-typed records) and component objects. A component object is kept
    as its class name, its identifier and the arguments it was built from. *)
Inductive value :=
| VScalar (s : scalar)
| VList (l : list value)
| VDict (d : list (string * value))
| VObj (c : component)
with component :=
| Node (tag : string) (id : value) (args : list value) (kwargs : list (string * value)).

Definition VNone : value := VScalar SNone.

Definition c_tag (c : component) : string := let 'Node t _ _ _ := c in t.
Definition c_id (c : component) : value := let 'Node _ i _ _ := c in i.
Definition c_kwargs (c : component) : list (string * value) := let 'Node _ _ _ k := c in k.

(** Python's truth value of an object ([if x:], [x or y], [not x]). *)
Definition truthy (v : value) : bool :=
  match v with
  | VScalar SNone => false
  | VScalar (SBool b) => b
  | VScalar (SInt n) => negb (n =? 0)%Z
  | VScalar (SStr s) => negb (String.eqb s "")
  | VList l => negb (bool_decide (length l = 0))
  | VDict d => negb (bool_decide (length d = 0))
  | VObj _ => true
  end.

Definition is_None (v : value) : bool :=
  match v with VScalar SNone => true | _ => false end.

(** [a or b] *)
Definition py_or (a b : value) : value := if truthy a then a else b.

(** A controlled-vocabulary or user parameter, as prepared for a section. *)
Record Param := mkParam {
  accession : scalar;
  param_name : string;
  param_value : value
}.

Inductive exn :=
| ValueError
| TypeError
| AttributeError
| ReferenceError
| OtherError (what : string).

Inductive result (A : Type) :=
| Ok (a : A)
| Raise (e : exn).
Arguments Ok {A} a.
Arguments Raise {A} e.

(** ** The identity registry *)

Module Registry.

(** The registry of the writer is the [context] it shares with its sections
    and components. [ComponentDispatcher.register] and [DocumentContext] are
    defined in [components.py], which is not among the sources; what follows
    is the registry of the specification, section 4.1. *)

(** A semantic key: the auto-generation sentinel or an explicit key. *)
Inductive key :=
| AUTO
| Key (k : scalar).

(** Category, then semantic key, to assigned identifier. *)
Abbreviation registry := (gmap string (gmap scalar value)).

Definition category (cat : string) (reg : registry) : gmap scalar value :=
  default ∅ (reg !! cat).

Definition scalar_string (s : scalar) : option string :=
  match s with SStr x => Some x | _ => None end.

Definition value_string (v : value) : option string :=
  match v with VScalar s => scalar_string s | _ => None end.

(** Every string already in use in a category, as a key or as an identifier. *)
Definition used_ids (m : gmap scalar value) : list string :=
  omap (λ kv, scalar_string kv.1) (map_to_list m)
  ++ omap (λ kv, value_string kv.2) (map_to_list m).

(** Modelled from the spec: how [components.py], which is not among the
    sources, formats a generated identifier is not known; it is a counter
    formatted with a category-specific prefix. *)
Definition candidate (cat : string) (n : nat) : string :=
  cat +:+ "_" +:+ pretty n.

(** Modelled from the spec: the search behind a generated identifier, absent
    with [components.py]. The counter only goes up, until the formatted
    identifier is one that is not in use in the category. *)
Fixpoint first_free (cat : string) (used : list string) (fuel n : nat) : nat :=
  match fuel with
  | O => n
  | S fuel' =>
      if bool_decide (candidate cat n ∈ used)
      then first_free cat used fuel' (S n)
      else n
  end.

(** Modelled from the spec: the identifier synthesized for the
    auto-generation sentinel, absent with [components.py]. It is unique within
    the category; the fuel is the number of strings in use, which is as far
    as the counter can have to go. *)
Definition synthesize (cat : string) (m : gmap scalar value) : string :=
  let used := used_ids m in
  candidate cat (first_free cat used (length used) 1).

(** Modelled from the spec: [ComponentDispatcher.register(category, key)],
    defined in [components.py], which is not among the sources. A key already mapped
    under the category returns its identifier; otherwise the sentinel gets a
    synthesized identifier, stored as a key that maps to itself, and any
    other key is stored as its own identifier. The sentinel is not a key of the map, so it is never
    found mapped. *)
Definition register (cat : string) (k : key) (reg : registry) : value * registry :=
  let m := category cat reg in
  match k with
  | Key k =>
      match m !! k with
      | Some i => (i, reg)
      | None => (VScalar k, <[cat := <[k := VScalar k]> m]> reg)
      end
  | AUTO =>
      let i := SStr (synthesize cat m) in
      (VScalar i, <[cat := <[i := VScalar i]> m]> reg)
  end.

(** Modelled from the spec: [resolve(category, key)], absent with
    [components.py], looks an existing registration up and fails when there
    is none. *)
Definition resolve (cat : string) (k : scalar) (reg : registry) : result value :=
  match category cat reg !! k with
  | Some i => Ok i
  | None => Raise ReferenceError
  end.

(** The identifiers assigned so far within a category. *)
Definition assigned (cat : string) (reg : registry) (i : value) : Prop :=
  ∃ k, category cat reg !! k = Some i.

(** A run of registrations in order: the identifiers returned, and the
    registry it leaves. *)
Fixpoint register_all (calls : list (string * key)) (reg : registry)
    : list value * registry :=
  match calls with
  | [] => ([], reg)
  | (cat, k) :: rest =>
      let '(i, reg1) := register cat k reg in
      let '(ids, reg2) := register_all rest reg1 in
      (i :: ids, reg2)
  end.

(** Of the identifiers a run returned, those of one category. *)
Definition returned_in (cat : string) (calls : list (string * key))
    (ids : list value) : list value :=
  omap (λ ci, if decide (ci.1.1 = cat) then Some ci.2 else None) (zip calls ids).

End Registry.

(** ** The state of one document-write session *)

(** The element object built by [_element(section, **section_args)]. *)
Record element := Element {
  el_tag : string;
  el_attrs : gmap string value
}.

(** What reaches the XML stream, in order. The incremental writer itself
    (lxml's) is outside the repository: opening and closing an element,
    writing a parameter or a component and flushing are its primitives. *)
Inductive event :=
| EvBegin (el : element) (with_id : bool)
| EvParam (p : Param)
| EvWrite (c : component)
| EvEnd (el : element)
| EvFlush.

(** The one warning of the module, given by [ProteinDetectionListSection]:
    MS:1002404 (count of identified proteins) is missing and should be given
    as a section parameter or as the [count] keyword argument. *)
Inductive warning :=
| CountMissing.

Record state := State {
  stream : list event;
  context : Registry.registry;
  warnings : list warning
}.

(** Computations of the writer: they read and update the session state and
    either return or raise. What was written before an exception stays
    written. *)
Definition M (A : Type) : Type := state → result A * state.

Global Instance M_ret : MRet M := λ A a st, (Ok a, st).

Global Instance M_bind : MBind M := λ A B f m st,
  match m st with
  | (Ok a, st') => f a st'
  | (Raise e, st') => (Raise e, st')
  end.

Definition raise {A} (e : exn) : M A := λ st, (Raise e, st).

Definition emit (e : event) : M unit := λ st,
  (Ok tt, State (stream st ++ [e]) (context st) (warnings st)).

(** [warnings.warn(...)]: the warning is issued and the caller goes on (the
    filters Python starts with never turn a warning into an exception). *)
Definition warn (w : warning) : M unit := λ st,
  (Ok tt, State (stream st) (context st) (warnings st ++ [w])).

Definition modify_context (f : Registry.registry → Registry.registry) : M unit := λ st,
  (Ok tt, State (stream st) (f (context st)) (warnings st)).

(** [self.register(category, key)] on the shared context. *)
Definition register (cat : string) (k : Registry.key) : M value := λ st,
  let '(i, reg) := Registry.register cat k (context st) in
  (Ok i, State (stream st) reg (warnings st)).

Fixpoint mapM {A B} (f : A → M B) (l : list A) : M (list B) :=
  match l with
  | [] => mret []
  | x :: l' => y ← f x; ys ← mapM f l'; mret (y :: ys)
  end.

(** ** Collaborators *)

(** What [writer.py] imports from [components.py], from [psims.xml] and from
    Python itself, and uses as given: how raw parameters are prepared, the
    identifier an element reports, the controlled-vocabulary lookup behind
    [self.param], the built-in [int], the namespace constant, the default
    organization identifier and the default fragmentation table. *)
Class Components := {
  prepare_params : value → result (list Param);
  element_id : element → scalar;
  param : string → Z → Param;
  py_int : value → result Z;
  _xmlns : value;
  DEFAULT_ORGANIZATION_ID : scalar;
  FragmentationTable : component
}.

Definition lift {A} (r : result A) : M A := λ st, (r, st).

(** ** Document sections *)

Inductive section_class :=
| PlainSection
| SpectrumIdentficationList
| ProteinDetectionList.

(** [toplevel.begin(writer, with_id)]: the context manager around the
    section's element. Entering it opens the element on the stream, leaving it
    closes the element. *)
Record context_manager := ContextManager {
  cm_element : element;
  cm_with_id : bool
}.

(** The attributes of a [DocumentSection] object; [fragmentation_table] is set
    by [SpectrumIdentficationListSection] only. *)
Record section_object := SectionObject {
  class : section_class;
  section : string;
  section_args : gmap string value;
  params : list Param;
  toplevel : option element;
  _context_manager : option context_manager;
  fragmentation_table : value
}.

Definition set_toplevel (el : element) (s : section_object) : section_object :=
  SectionObject (class s) (section s) (section_args s) (params s) (Some el)
    (_context_manager s) (fragmentation_table s).

Definition set_context_manager (cm : context_manager) (s : section_object) : section_object :=
  SectionObject (class s) (section s) (section_args s) (params s) (toplevel s)
    (Some cm) (fragmentation_table s).

Definition has_id (s : section_object) : bool :=
  bool_decide (is_Some (section_args s !! "id")).

Module DocumentSection.
Section methods.
Context `{Components}.

(** [section_args.update(kwargs)], then [params] is popped (default [[]]) and
    prepared; the element is not created yet. *)
Definition __init__ (cls : section_class) (section : string)
    (sargs : option (gmap string value)) (kwargs : gmap string value)
    : M section_object :=
  let section_args := kwargs ∪ default ∅ sargs in
  let raw := default (VList []) (section_args !! "params") in
  let section_args := delete "params" section_args in
  params ← lift (prepare_params raw);
  mret (SectionObject cls section section_args params None None VNone).

Definition _create_element (s : section_object) : M section_object :=
  match toplevel s with
  | None =>
      let el := Element (section s) (section_args s) in
      match section_args s !! "id" with
      | Some i =>
          modify_context (λ ctx,
            <[section s := <[element_id el := i]> (Registry.category (section s) ctx)]> ctx)
      | None => mret tt
      end;;
      mret (set_toplevel el s)
  | Some _ => mret s
  end.

Definition write_params (ps : list Param) : M unit :=
  mapM (λ p, emit (EvParam p)) ps;; mret tt.

Definition __enter__ (s : section_object) : M section_object :=
  s ← _create_element s;
  let with_id := has_id s in
  match toplevel s with
  | Some el =>
      let cm := ContextManager el with_id in
      let s := set_context_manager cm s in
      emit (EvBegin (cm_element cm) (cm_with_id cm));;
      write_params (params s);;
      mret s
  | None => raise AttributeError
  end.

(** The exception in flight, if any, is handed to the element's context
    manager, which closes the element whatever it is given. *)
Definition __exit__ (s : section_object) (exc : option exn) : M unit :=
  match _context_manager s with
  | Some cm => emit (EvEnd (cm_element cm));; emit EvFlush
  | None => raise AttributeError
  end.

End methods.
End DocumentSection.

Module SpectrumIdentficationListSection.
Section methods.
Context `{Components}.

Definition __init__ (sargs : option (gmap string value))
    (kwargs : gmap string value) : M section_object :=
  s ← DocumentSection.__init__ SpectrumIdentficationList "SpectrumIdentificationList"
        sargs kwargs;
  let table := default VNone (section_args s !! "fragmentation_table") in
  mret (SectionObject (class s) (section s) (delete "fragmentation_table" (section_args s))
          (params s) (toplevel s) (_context_manager s) table).

Definition __enter__ (s : section_object) : M section_object :=
  s ← DocumentSection.__enter__ s;
  (if truthy (fragmentation_table s)
   then match fragmentation_table s with
        | VObj c => emit (EvWrite c)
        | _ => raise AttributeError
        end
   else mret tt);;
  mret s.

End methods.
End SpectrumIdentficationListSection.

Module ProteinDetectionListSection.
Section methods.
Context `{Components}.

Definition is_count_param (p : Param) : bool :=
  bool_decide (accession p = SStr "MS:1002404").

Definition __init__ (sargs : option (gmap string value))
    (kwargs : gmap string value) : M section_object :=
  s ← DocumentSection.__init__ ProteinDetectionList "ProteinDetectionList"
        sargs kwargs;
  let count := default VNone (section_args s !! "count") in
  let s := SectionObject (class s) (section s) (delete "count" (section_args s))
             (params s) (toplevel s) (_context_manager s) (fragmentation_table s) in
  let has_count_param := existsb is_count_param (params s) in
  (if is_None count && negb has_count_param then warn CountMissing else mret tt);;
  (if negb (is_None count) && has_count_param then raise ValueError else mret tt);;
  if negb (is_None count)
  then n ← lift (py_int count);
       mret (SectionObject (class s) (section s) (section_args s)
               (params s ++ [param "count of identified proteins" n])
               (toplevel s) (_context_manager s) (fragmentation_table s))
  else mret s.

End methods.
End ProteinDetectionListSection.

Section with_statement.
Context `{Components}.

(** Which [__enter__] a section object answers with: its class's. *)
Definition enter (s : section_object) : M section_object :=
  match class s with
  | SpectrumIdentficationList => SpectrumIdentficationListSection.__enter__ s
  | _ => DocumentSection.__enter__ s
  end.

Definition exc_of {A} (r : result A) : option exn :=
  match r with Ok _ => None | Raise e => Some e end.

(** Python's [with s: body]. [__enter__] runs first; if it raises, neither
    the body nor [__exit__] runs. Otherwise the body runs and [__exit__] is
    called with the exception the body raised, if any; [__exit__] returns
    [None], so that exception goes on to the caller. *)
Definition py_with {A} (s : section_object) (body : M A) : M A := λ st,
  match enter s st with
  | (Raise e, st1) => (Raise e, st1)
  | (Ok s1, st1) =>
      let '(r, st2) := body st1 in
      match DocumentSection.__exit__ s1 (exc_of r) st2 with
      | (Raise e, st3) => (Raise e, st3)
      | (Ok _, st3) => (r, st3)
      end
  end.

End with_statement.

(** ** Components built by the writer *)

Module Component.

Fixpoint assoc (k : string) (kw : list (string * value)) : option value :=
  match kw with
  | [] => None
  | (k', v) :: kw' => if String.eqb k k' then Some v else assoc k kw'
  end.

(** Modelled from the spec: the component classes are in [components.py],
    which is not among the sources. A component has a category, an identifier
    resolved through the registry when it is built (the given [id], or an
    auto-generated one when none is given), and the values it was built
    from. *)
Definition construct (cat : string) (args : list value)
    (kwargs : list (string * value)) : M component :=
  match assoc "id" kwargs with
  | None => i ← register cat Registry.AUTO; mret (Node cat i args kwargs)
  | Some (VScalar k) => i ← register cat (Registry.Key k); mret (Node cat i args kwargs)
  | Some _ => raise TypeError
  end.

(** Modelled from the spec: [Component.ensure] is in [components.py]. An
    already-built component is returned as it is, without registering
    anything; a loosely-typed record is turned into a component of the
    expected category, which registers its identifier. *)
Definition ensure (cat : string) (raw : value) : M component :=
  match raw with
  | VObj c => mret c
  | VDict d => construct cat [] d
  | _ => raise TypeError
  end.

(** Modelled from the spec: [utils.ensure_iterable] is not among the sources.
    An entity argument is one record or an iterable collection of records;
    [None] stands for no record at all. *)
Definition ensure_iterable (v : value) : list value :=
  match v with
  | VScalar SNone => []
  | VList l => l
  | _ => [v]
  end.

(** Grouping elements carry no identifier of their own. *)
Definition GenericCollection (tag : string) (members : list component) : component :=
  Node tag VNone [VList (VObj <$> members)] [].

Definition Provider (contact : value) : component :=
  Node "Provider" VNone [] [("contact"%string, contact)].

Definition AuditCollection (owner organization : list component) : component :=
  Node "AuditCollection" VNone
    [VList (VObj <$> owner); VList (VObj <$> organization)] [].

(** [component.write(self.writer)] *)
Definition write (c : component) : M unit := emit (EvWrite c).

End Component.

(** ** The document writer *)

Module MzIdentMLWriter.
Section methods.
Context `{Components}.

Definition is_nil {A} (l : list A) : bool :=
  match l with [] => true | _ => false end.

(** [[cls.ensure(o or {}) for o in ensure_iterable(arg)]] *)
Definition ensure_each (cat : string) (arg : value) : M (list component) :=
  mapM (λ o, Component.ensure cat (py_or o (VDict []))) (Component.ensure_iterable arg).

Definition providence (software owner organization : value) : M unit :=
  organization ← ensure_each "Organization" organization;
  owner ← ensure_each "Person" owner;
  software ← ensure_each "AnalysisSoftware" software;
  '(owner, organization) ←
    (if is_nil owner && is_nil organization
     then
       let affiliation := DEFAULT_ORGANIZATION_ID in
       register "Organization" (Registry.Key affiliation);;
       person ← Component.construct "Person" [] [("affiliation"%string, VScalar affiliation)];
       org ← Component.construct "Organization" [] [("id"%string, VScalar affiliation)];
       mret ([person], [org])
     else mret (owner, organization));
  Component.write (Component.GenericCollection "AnalysisSoftwareList" software);;
  let owner_id := match owner with o :: _ => c_id o | [] => VNone end in
  Component.write (Component.Provider owner_id);;
  Component.write (Component.AuditCollection owner organization).

Definition plain_section (tag : string) : M section_object :=
  DocumentSection.__init__ PlainSection tag None {[ "xmlns"%string := _xmlns ]}.

Definition analysis_protocol_collection := plain_section "AnalysisProtocolCollection".
Definition sequence_collection := plain_section "SequenceCollection".
Definition analysis_collection := plain_section "AnalysisCollection".
Definition data_collection := plain_section "DataCollection".
Definition analysis_data := plain_section "AnalysisData".

Definition spectrum_identification_list (id measures : value) : M section_object :=
  let measures := if is_None measures then VObj FragmentationTable else measures in
  SpectrumIdentficationListSection.__init__ None
    (<["id"%string := id]> {[ "fragmentation_table"%string := measures ]}).

(** [kwargs] holds the further attributes of the element; [id], [count] and
    [params] are parameters of the method and so never among them. *)
Definition protein_detection_list (id count params : value)
    (kwargs : gmap string value) : M section_object :=
  ProteinDetectionListSection.__init__ None
    (<["id"%string := id]> (<["count"%string := count]> (<["params"%string := params]> kwargs))).

End methods.
End MzIdentMLWriter.

(** ** Tolerances of [spectrum_identification_protocol] *)

Module Tolerance.

(** What goes into a tolerance: numbers are Python floats, IEEE binary64. *)
Inductive arg_value :=
| ANone
| AFloat (x : float)
| AStr (s : string).

(** The call [self.FragmentTolerance(...)] or [self.ParentTolerance(...)]:
    both classes are in [components.py], so the component is kept as its
    class and the positional arguments it was built from. *)
Record tolerance := Tol {
  tol_class : string;
  tol_args : list arg_value
}.

(** What a caller may pass as [fragment_tolerance] or [parent_tolerance]:
    [None] (the default), a list or tuple that is splatted into the
    constructor, a bare number, or an object that is handed on untouched. *)
Inductive tolerance_arg :=
| ArgNone
| ArgSeq (args : list arg_value)
| ArgNumber (x : float)
| ArgObject (t : tolerance).

(** The [isinstance] cascade of lines 279-285 for [cls = FragmentTolerance]
    and of lines 287-293 for [cls = ParentTolerance]. [1e-4] and [1e6] are the
    binary64 values of the source's literals; [<?] and [*] are binary64
    comparison and multiplication. *)
Definition classify_tolerance (cls : string) (a : tolerance_arg) : option tolerance :=
  match a with
  | ArgSeq args => Some (Tol cls args)
  | ArgNumber x =>
      if (x <? 1e-4)%float
      then Some (Tol cls [AFloat (x * 1e6)%float; ANone; AStr "parts per million"])
      else Some (Tol cls [AFloat x; ANone; AStr "dalton"])
  | ArgNone => None
  | ArgObject t => Some t
  end.

(** The two tolerances that [spectrum_identification_protocol] hands to
    [SpectrumIdentificationProtocol], which is then written. *)
Definition protocol_tolerances (fragment_tolerance parent_tolerance : tolerance_arg)
    : option tolerance * option tolerance :=
  (classify_tolerance "FragmentTolerance" fragment_tolerance,
   classify_tolerance "ParentTolerance" parent_tolerance).

End Tolerance.

(** ** What the operations leave behind

    The states and section objects the properties below are stated with. *)

Definition add_events (evs : list event) (st : state) : state :=
  State (stream st ++ evs) (context st) (warnings st).

Definition with_context (ctx : Registry.registry) (st : state) : state :=
  State (stream st) ctx (warnings st).

(** The element a section stands for: the one it already holds, or the one
    [_element(section, **section_args)] builds. *)
Definition section_element (s : section_object) : element :=
  default (Element (section s) (section_args s)) (toplevel s).

(** The section object once entered. *)
Definition entered (s : section_object) : section_object :=
  SectionObject (class s) (section s) (section_args s) (params s)
    (Some (section_element s))
    (Some (ContextManager (section_element s) (has_id s)))
    (fragmentation_table s).

(** What a constructor leaves behind: the stream and the context as they
    were, and a section object that holds no element yet. *)
Definition not_materialized (st : state) (r : result section_object * state) : Prop :=
  stream r.2 = stream st
  ∧ context r.2 = context st
  ∧ match r.1 with
    | Ok s => toplevel s = None ∧ _context_manager s = None
    | Raise _ => True
    end.

(** The protein detection list section before its count is looked at. *)
Definition pdl_base (id count params : value) (kwargs : gmap string value)
    (ps : list Param) : section_object :=
  SectionObject ProteinDetectionList "ProteinDetectionList"
    (delete "params"
       (<["id" := id]> (<["count" := count]> (<["params" := params]> kwargs)) ∪ ∅))
    ps None None VNone.

(** The three elements [providence] writes, in order. *)
Definition providence_events (software owner organization : list component)
    : list event :=
  [ EvWrite (Component.GenericCollection "AnalysisSoftwareList" software);
    EvWrite (Component.Provider (match owner with o :: _ => c_id o | [] => VNone end));
    EvWrite (Component.AuditCollection owner organization) ].

Section outcomes.
Context `{Components}.

(** The context once the element exists: a section that is created with an
    [id] argument records it under the element's identifier. *)
Definition context_created (s : section_object) (ctx : Registry.registry)
    : Registry.registry :=
  match toplevel s, section_args s !! "id" with
  | None, Some i =>
      <[section s := <[element_id (section_element s) := i]>
                       (Registry.category (section s) ctx)]> ctx
  | _, _ => ctx
  end.

End outcomes.

(** ** A concrete set of collaborators

    Used to run the model on examples: parameters are given as records with
    an [accession], a [name] and a [value]; an element reports its [id]
    argument. *)

Module Reference.

Definition scalar_of (v : option value) : scalar :=
  match v with Some (VScalar s) => s | _ => SNone end.

Definition param_of (v : value) : Param :=
  match v with
  | VDict d =>
      mkParam (scalar_of (Component.assoc "accession" d))
        (default ""%string (Registry.scalar_string (scalar_of (Component.assoc "name" d))))
        (default VNone (Component.assoc "value" d))
  | VScalar (SStr n) => mkParam SNone n VNone
  | _ => mkParam SNone "" v
  end.

Definition components : Components := {|
  prepare_params v :=
    match v with
    | VScalar SNone => Ok []
    | VList l => Ok (param_of <$> l)
    | VDict _ => Ok [param_of v]
    | _ => Raise TypeError
    end;
  element_id el := scalar_of (el_attrs el !! "id"%string);
  param n v := mkParam (SStr "MS:1002404") n (VScalar (SInt v));
  py_int v := match v with VScalar (SInt n) => Ok n | _ => Raise TypeError end;
  _xmlns := VScalar (SStr "http://psidev.info/psi/pi/mzIdentML/1.1");
  DEFAULT_ORGANIZATION_ID := SStr "ORG_DOC_OWNER";
  FragmentationTable := Node "FragmentationTable" VNone [] []
|}.

Definition empty_state : state := State [] ∅ [].

(** A count parameter as a caller writes it. *)
Definition count_record : value :=
  VDict [ ("accession"%string, VScalar (SStr "MS:1002404"));
          ("name"%string, VScalar (SStr "count of identified proteins"));
          ("value"%string, VScalar (SInt 10)) ].

(** What [sequence_collection()] returns. *)
Definition sequence_section : section_object :=
  SectionObject PlainSection "SequenceCollection"
    {[ "xmlns"%string := @_xmlns components ]} [] None None VNone.

(** A body that writes one element and then fails. *)
Definition failing_body : M unit :=
  emit (EvWrite (Node "DBSequence" (VScalar (SStr "DBSeq_1")) [] []));;
  raise (OtherError "accession is missing").

Definition detection_section : section_object :=
  SectionObject ProteinDetectionList "ProteinDetectionList"
    {[ "id"%string := VScalar (SInt 1) ]}
    [param_of count_record] None None VNone.

Definition default_org : value := VScalar (SStr "ORG_DOC_OWNER").

Definition owner_record : value :=
  VDict [ ("id"%string, VScalar (SStr "P1")); ("last_name"%string, VScalar (SStr "Doe")) ].

Definition org_record : value :=
  VDict [ ("id"%string, VScalar (SStr "O1")); ("name"%string, VScalar (SStr "Lab")) ].

End Reference.

(** ** Further methods of the writer *)

Module Document.

(** [self.Inputs(source_files, search_databases, spectra_data)] and
    [self.CVList(vocabularies)]: grouping elements, kept as their class and
    the arguments they were built from. *)
Definition Inputs (source_files search_databases spectra_data : list component)
    : component :=
  Node "Inputs" VNone
    [ VList (VObj <$> source_files); VList (VObj <$> search_databases);
      VList (VObj <$> spectra_data) ] [].

Definition CVList (vocabularies : list value) : component :=
  Node "CVList" VNone [VList vocabularies] [].

Section methods.
Context `{Components}.

Definition inputs (source_files search_databases spectra_data : value) : M unit :=
  source_files ← MzIdentMLWriter.ensure_each "SourceFile" source_files;
  search_databases ← MzIdentMLWriter.ensure_each "SearchDatabase" search_databases;
  spectra_data ← MzIdentMLWriter.ensure_each "SpectraData" spectra_data;
  Component.write (Inputs source_files search_databases spectra_data).

End methods.

(** The writer object beside its session: the list [self.vocabularies],
    which [controlled_vocabularies] extends in place. *)
Record writer := Writer {
  vocabularies : list value;
  session : state
}.

(** [vocabularies=None] stands for the empty list; the given vocabularies
    are appended to the writer's own list, and the whole list is written. *)
Definition controlled_vocabularies (given : option (list value)) (w : writer)
    : result unit * writer :=
  let all := vocabularies w ++ default [] given in
  let '(r, st) := Component.write (CVList all) (session w) in
  (r, Writer all st).

(** One call after the other on the same writer. *)
Fixpoint controlled_vocabularies_each (calls : list (option (list value)))
    (w : writer) : writer :=
  match calls with
  | [] => w
  | given :: rest => controlled_vocabularies_each rest (controlled_vocabularies given w).2
  end.

End Document.

(** ** Sections as the writer returns them *)

(** The protein detection list section with the given parameters: [id] is
    its attribute beside the further ones, [count] and [params] are not. *)
Definition pdl_section (id : value) (kwargs : gmap string value)
    (ps : list Param) : section_object :=
  SectionObject ProteinDetectionList "ProteinDetectionList"
    (<["id" := id]> (delete "count" (delete "params" kwargs))) ps None None VNone.

(** The spectrum identification list section holding [table]. *)
Definition sil_section (id table : value) (ps : list Param) : section_object :=
  SectionObject SpectrumIdentficationList "SpectrumIdentificationList"
    {[ "id" := id ]} ps None None table.

(** ** Nesting of the stream *)

(** The tags of the elements that are open once the events are read from a
    stack of open tags, innermost first; [None] when an element is closed
    that is not the innermost open one. *)
Fixpoint nesting (open : list string) (evs : list event) : option (list string) :=
  match evs with
  | [] => Some open
  | EvBegin el _ :: evs' => nesting (el_tag el :: open) evs'
  | EvEnd el :: evs' =>
      match open with
      | t :: open' => if String.eqb t (el_tag el) then nesting open' evs' else None
      | [] => None
      end
  | _ :: evs' => nesting open evs'
  end.

(** Events that close every element they open and no other. *)
Definition well_nested (evs : list event) : Prop :=
  ∀ open, nesting open evs = Some open.

(** A computation that leaves stream and warnings alone. *)
Definition quiet {A} (m : M A) : Prop :=
  ∀ st, stream (m st).2 = stream st ∧ warnings (m st).2 = warnings st.

(** ** Sessions used as examples *)

Module Scenario.

(** [with f.data_collection(): with f.analysis_data(): body], as in the
    test of the writer. *)
Definition data_section : section_object :=
  SectionObject PlainSection "DataCollection"
    {[ "xmlns"%string := @_xmlns Reference.components ]} [] None None VNone.

Definition analysis_data_section : section_object :=
  SectionObject PlainSection "AnalysisData"
    {[ "xmlns"%string := @_xmlns Reference.components ]} [] None None VNone.

Definition nested_body : M unit :=
  @py_with Reference.components unit analysis_data_section Reference.failing_body.

Definition unimod : value := VDict [("id"%string, VScalar (SStr "UNIMOD"))].
Definition psi_ms : value := VDict [("id"%string, VScalar (SStr "PSI-MS"))].

Definition fresh_writer : Document.writer :=
  Document.Writer [psi_ms] Reference.empty_state.

Definition source_file : value :=
  VDict [ ("id"%string, VScalar (SStr "SF_1"));
          ("location"%string, VScalar (SStr "file:///run.mzid")) ].

End Scenario.

(** * Properties *)

(** ** The registry *)

Section registry_facts.
Import Registry.

Lemma category_insert cat m (reg : registry) :
  category cat (<[cat := m]> reg) = m.
Proof. unfold category. by rewrite lookup_insert_eq. Qed.

Lemma category_insert_ne cat cat' m (reg : registry) :
  cat ≠ cat' → category cat' (<[cat := m]> reg) = category cat' reg.
Proof. intros Hne. unfold category. by rewrite lookup_insert_ne. Qed.

Global Instance candidate_inj cat : Inj (=) (=) (candidate cat).
Proof.
  intros n1 n2 Heq. unfold candidate in Heq.
  apply (inj (String.app cat)) in Heq.
  apply (inj (String.app "_")) in Heq.
  by apply (inj pretty) in Heq.
Qed.

(** Pigeonhole: once every candidate from [n0] up to [n] is taken and the
    fuel covers what is left of [used], the candidate found is unused. *)
Lemma first_free_unused cat used n0 fuel n :
  n0 ≤ n →
  (∀ m, n0 ≤ m < n → candidate cat m ∈ used) →
  length used ≤ fuel + (n - n0) →
  candidate cat (first_free cat used fuel n) ∉ used.
Proof.
  revert n. induction fuel as [|fuel IH]; intros n Hle Hall Hlen; simpl.
  - intros Hin.
    assert (Hsub : candidate cat <$> seq n0 (S (n - n0)) ⊆+ used).
    { apply NoDup_submseteq.
      - apply (NoDup_fmap_2 _), NoDup_seq.
      - intros x (m & -> & Hm)%list_elem_of_fmap.
        apply elem_of_seq in Hm.
        destruct (decide (m = n)) as [->|Hne]; [done|].
        apply Hall. lia. }
    apply submseteq_length in Hsub.
    rewrite length_fmap, length_seq in Hsub. lia.
  - case_bool_decide as Hin; [|done].
    apply IH; [lia| |lia].
    intros m Hm. destruct (decide (m = n)) as [->|Hne]; [done|].
    apply Hall. lia.
Qed.

Lemma synthesize_unused cat m : synthesize cat m ∉ used_ids m.
Proof.
  unfold synthesize. apply (first_free_unused cat _ 1); [lia| |lia].
  intros k Hk. lia.
Qed.

Lemma used_ids_key (m : gmap scalar value) s v :
  m !! SStr s = Some v → s ∈ used_ids m.
Proof.
  intros Hm. unfold used_ids. apply elem_of_app. left.
  apply list_elem_of_omap. exists (SStr s, v). split; [|done].
  by apply elem_of_map_to_list.
Qed.

Lemma used_ids_value (m : gmap scalar value) k s :
  m !! k = Some (VScalar (SStr s)) → s ∈ used_ids m.
Proof.
  intros Hm. unfold used_ids. apply elem_of_app. right.
  apply list_elem_of_omap. exists (k, VScalar (SStr s)). split; [|done].
  by apply elem_of_map_to_list.
Qed.

Lemma synthesize_not_key cat (m : gmap scalar value) :
  m !! SStr (synthesize cat m) = None.
Proof.
  destruct (m !! SStr (synthesize cat m)) as [v|] eqn:Hm; [|done].
  exfalso. eapply synthesize_unused, used_ids_key, Hm.
Qed.

Lemma synthesize_not_value cat (m : gmap scalar value) k :
  m !! k ≠ Some (VScalar (SStr (synthesize cat m))).
Proof. intros Hm. eapply synthesize_unused, used_ids_value, Hm. Qed.

(** A registration never changes what an already mapped key maps to. *)
Lemma register_keeps cat k reg cat' k' i :
  category cat' reg !! k' = Some i →
  category cat' (register cat k reg).2 !! k' = Some i.
Proof.
  intros Hi. unfold register.
  destruct k as [|k].
  - simpl. destruct (decide (cat = cat')) as [->|Hne].
    + rewrite category_insert.
      rewrite lookup_insert_ne; [done|].
      intros <-. by rewrite synthesize_not_key in Hi.
    + by rewrite category_insert_ne.
  - destruct (category cat reg !! k) as [j|] eqn:Hk; simpl; [done|].
    destruct (decide (cat = cat')) as [->|Hne].
    + rewrite category_insert.
      rewrite lookup_insert_ne; [done|]. congruence.
    + by rewrite category_insert_ne.
Qed.

(** The identifier a registration returns is the one its key maps to
    afterwards, when the key is an explicit one. *)
Lemma register_key_lookup cat k reg :
  category cat (register cat (Key k) reg).2 !! k = Some (register cat (Key k) reg).1.
Proof.
  unfold register.
  destruct (category cat reg !! k) as [j|] eqn:Hk; simpl; [done|].
  by rewrite category_insert, lookup_insert_eq.
Qed.

Lemma register_key_mapped cat k reg i :
  category cat reg !! k = Some i → register cat (Key k) reg = (i, reg).
Proof. intros Hk. unfold register. by rewrite Hk. Qed.

(** Whatever a registration returns is assigned in its category afterwards. *)
Lemma register_assigned cat k reg :
  assigned cat (register cat k reg).2 (register cat k reg).1.
Proof.
  destruct k as [|k].
  - exists (SStr (synthesize cat (category cat reg))). unfold register; simpl.
    by rewrite category_insert, lookup_insert_eq.
  - exists k. apply register_key_lookup.
Qed.

Lemma register_keeps_assigned cat k reg cat' i :
  assigned cat' reg i → assigned cat' (register cat k reg).2 i.
Proof. intros [k' Hk']. exists k'. by apply register_keeps. Qed.

Lemma register_auto_fresh cat reg :
  ¬ assigned cat reg (register cat AUTO reg).1.
Proof. intros [k Hk]. simpl in Hk. by eapply synthesize_not_value. Qed.

End registry_facts.

Section registry_runs.
Import Registry.

Lemma register_all_keeps calls reg cat k i :
  category cat reg !! k = Some i →
  category cat (register_all calls reg).2 !! k = Some i.
Proof.
  revert reg. induction calls as [|[c k'] calls IH]; intros reg Hk; simpl; [done|].
  pose proof (register_keeps c k' reg cat k i Hk) as Hkeep.
  destruct (register c k' reg) as [j reg1]; simpl in Hkeep.
  specialize (IH reg1 Hkeep).
  by destruct (register_all calls reg1) as [ids reg2].
Qed.

Lemma register_all_assigned calls reg cat j :
  j ∈ returned_in cat calls (register_all calls reg).1 →
  assigned cat (register_all calls reg).2 j.
Proof.
  revert reg. induction calls as [|[c k] calls IH]; intros reg; simpl.
  - unfold returned_in; simpl. by intros ?%elem_of_nil.
  - pose proof (register_assigned c k reg) as Hnew.
    destruct (register c k reg) as [i reg1]; simpl in Hnew.
    specialize (IH reg1).
    destruct (register_all calls reg1) as [ids reg2] eqn:Hrun; simpl in *.
    unfold returned_in; simpl.
    destruct (decide (c = cat)) as [->|Hne]; [|exact IH].
    intros [->|Hin]%elem_of_cons; [|by apply IH].
    destruct Hnew as [k' Hk']. exists k'.
    pose proof (register_all_keeps calls reg1 cat k' i Hk') as Hkeep.
    by rewrite Hrun in Hkeep.
Qed.

End registry_runs.

(** C4: registering the same explicit key twice under one category returns
    the same identifier both times, whatever is registered in between; and a
    registration with the auto-generation sentinel returns an identifier that
    is not yet assigned in its category, so it differs from every identifier
    the session returned for that category before. *)
Theorem register_idempotent_and_auto_fresh
    (cat : string) (reg : Registry.registry) (calls : list (string * Registry.key)) :
  (∀ k,
     let '(i1, reg1) := Registry.register cat (Registry.Key k) reg in
     let '(_, reg2) := Registry.register_all calls reg1 in
     let '(i2, _) := Registry.register cat (Registry.Key k) reg2 in
     i2 = i1)
  ∧ (let '(ids, reg1) := Registry.register_all calls reg in
     let '(i, reg2) := Registry.register cat Registry.AUTO reg1 in
     ¬ Registry.assigned cat reg1 i
     ∧ Registry.assigned cat reg2 i
     ∧ i ∉ Registry.returned_in cat calls ids).
Proof.
  split.
  - intros k.
    pose proof (register_key_lookup cat k reg) as Hk.
    destruct (Registry.register cat (Registry.Key k) reg) as [i1 reg1]; simpl in Hk.
    pose proof (register_all_keeps calls reg1 cat k i1 Hk) as Hkeep.
    destruct (Registry.register_all calls reg1) as [ids reg2]; simpl in Hkeep.
    by rewrite (register_key_mapped cat k reg2 i1 Hkeep).
  - pose proof (register_all_assigned calls reg cat) as Hret.
    destruct (Registry.register_all calls reg) as [ids reg1]; simpl in Hret.
    pose proof (register_auto_fresh cat reg1) as Hfresh.
    pose proof (register_assigned cat Registry.AUTO reg1) as Hnew.
    destruct (Registry.register cat Registry.AUTO reg1) as [i reg2]; simpl in *.
    split; [done|]. split; [done|].
    intros Hin. by apply Hfresh, Hret.
Qed.

(** ** Document sections *)

Lemma add_events_nil st : add_events [] st = st.
Proof. destruct st. unfold add_events; simpl. by rewrite app_nil_r. Qed.

Lemma add_events_app evs1 evs2 st :
  add_events evs2 (add_events evs1 st) = add_events (evs1 ++ evs2) st.
Proof. unfold add_events; simpl. by rewrite app_assoc. Qed.

Lemma bind_run {A B} (m : M A) (f : A → M B) st :
  (m ≫= f) st
  = match m st with
    | (Ok a, st') => f a st'
    | (Raise e, st') => (Raise e, st')
    end.
Proof. reflexivity. Qed.

Lemma bind_ok {A B} (m : M A) (f : A → M B) st a st' :
  m st = (Ok a, st') → (m ≫= f) st = f a st'.
Proof. intros Hm. by rewrite bind_run, Hm. Qed.

Lemma bind_raise {A B} (m : M A) (f : A → M B) st e st' :
  m st = (Raise e, st') → (m ≫= f) st = (Raise e, st').
Proof. intros Hm. by rewrite bind_run, Hm. Qed.

Lemma ret_run {A} (a : A) st : (mret a : M A) st = (Ok a, st).
Proof. reflexivity. Qed.

Lemma emit_run e st : emit e st = (Ok tt, add_events [e] st).
Proof. reflexivity. Qed.

Section section_facts.
Context `{Components}.

Lemma write_params_run ps st :
  DocumentSection.write_params ps st = (Ok tt, add_events (EvParam <$> ps) st).
Proof.
  unfold DocumentSection.write_params.
  assert (Hmap : ∃ us, mapM (λ p, emit (EvParam p)) ps st
                       = (Ok us, add_events (EvParam <$> ps) st)).
  { revert st. induction ps as [|p ps IH]; intros st; simpl.
    - exists []. by rewrite ret_run, add_events_nil.
    - destruct (IH (add_events [EvParam p] st)) as [us Hus].
      exists (tt :: us).
      rewrite (bind_ok _ _ _ _ _ (emit_run _ _)).
      rewrite (bind_ok _ _ _ _ _ Hus).
      by rewrite ret_run, add_events_app. }
  destruct Hmap as [us Hus].
  by rewrite (bind_ok _ _ _ _ _ Hus).
Qed.

End section_facts.

Section section_enter_exit.
Context `{Components}.

Lemma create_element_run s st :
  DocumentSection._create_element s st
  = (Ok (match toplevel s with None => set_toplevel (section_element s) s | Some _ => s end),
     with_context (context_created s (context st)) st).
Proof.
  unfold DocumentSection._create_element, context_created, section_element, with_context.
  destruct (toplevel s) as [el|] eqn:Htop; simpl.
  - rewrite ret_run. by destruct st.
  - destruct (section_args s !! "id") as [i|] eqn:Hid; rewrite bind_run; simpl.
    + by rewrite ret_run.
    + rewrite !ret_run. by destruct st.
Qed.

Lemma base_enter_run s st :
  DocumentSection.__enter__ s st
  = (Ok (entered s),
     add_events (EvBegin (section_element s) (has_id s) :: (EvParam <$> params s))
       (with_context (context_created s (context st)) st)).
Proof.
  unfold DocumentSection.__enter__.
  rewrite (bind_ok _ _ _ _ _ (create_element_run s st)).
  destruct (toplevel s) as [el|] eqn:Htop; simpl.
  - rewrite Htop.
    rewrite (bind_ok _ _ _ _ _ (emit_run _ _)).
    rewrite (bind_ok _ _ _ _ _ (write_params_run _ _)).
    rewrite ret_run, add_events_app. simpl.
    unfold entered, section_element, set_context_manager. rewrite Htop. simpl.
    by destruct s.
  - rewrite (bind_ok _ _ _ _ _ (emit_run _ _)).
    rewrite (bind_ok _ _ _ _ _ (write_params_run _ _)).
    rewrite ret_run, add_events_app. simpl.
    unfold entered, section_element, set_context_manager, set_toplevel, has_id.
    rewrite Htop. simpl. reflexivity.
Qed.

Lemma exit_entered_run s exc st :
  DocumentSection.__exit__ (entered s) exc st
  = (Ok tt, add_events [EvEnd (section_element s); EvFlush] st).
Proof.
  unfold DocumentSection.__exit__. simpl.
  rewrite (bind_ok _ _ _ _ _ (emit_run _ _)).
  by rewrite emit_run, add_events_app.
Qed.

(** Entering a section of any class ends in the section object [entered s],
    whenever it succeeds. *)
Lemma enter_ok_entered s st s1 st1 :
  enter s st = (Ok s1, st1) → s1 = entered s.
Proof.
  unfold enter, SpectrumIdentficationListSection.__enter__.
  destruct (class s).
  - rewrite base_enter_run. by intros [= <- _].
  - rewrite (bind_ok _ _ _ _ _ (base_enter_run s st)).
    rewrite bind_run.
    destruct (truthy (fragmentation_table (entered s))).
    + destruct (fragmentation_table (entered s)) as [| | |c];
        [unfold raise; by intros [=].. |].
      rewrite emit_run, ret_run. by intros [= <- _].
    + rewrite !ret_run. by intros [= <- _].
  - rewrite base_enter_run. by intros [= <- _].
Qed.

End section_enter_exit.

Section section_claims.
Context `{Components}.

Lemma with_run {A} (s : section_object) (body : M A) st st1 :
  enter s st = (Ok (entered s), st1) →
  py_with s body st
  = let '(r, st2) := body st1 in
    (r, add_events [EvEnd (section_element s); EvFlush] st2).
Proof.
  intros Henter. unfold py_with. rewrite Henter.
  destruct (body st1) as [r st2].
  by rewrite exit_entered_run.
Qed.

Lemma init_run cls tag sargs kwargs st :
  DocumentSection.__init__ cls tag sargs kwargs st
  = let section_args := kwargs ∪ default ∅ sargs in
    match prepare_params (default (VList []) (section_args !! "params")) with
    | Ok ps =>
        (Ok (SectionObject cls tag (delete "params" section_args) ps None None VNone), st)
    | Raise e => (Raise e, st)
    end.
Proof.
  unfold DocumentSection.__init__. simpl. rewrite bind_run. unfold lift.
  by destruct (prepare_params _).
Qed.

(** A section of the spectrum identification list class that holds a table
    writes it right after its parameters. *)
Lemma sil_enter_run s st c :
  class s = SpectrumIdentficationList →
  fragmentation_table s = VObj c →
  enter s st
  = (Ok (entered s),
     add_events (EvBegin (section_element s) (has_id s) :: (EvParam <$> params s) ++ [EvWrite c])
       (with_context (context_created s (context st)) st)).
Proof.
  intros Hcls Htab. unfold enter. rewrite Hcls.
  unfold SpectrumIdentficationListSection.__enter__.
  rewrite (bind_ok _ _ _ _ _ (base_enter_run s st)).
  simpl. rewrite Htab. simpl.
  rewrite (bind_ok _ _ _ _ _ (emit_run _ _)).
  by rewrite ret_run, add_events_app.
Qed.

Lemma plain_enter_run s st :
  class s ≠ SpectrumIdentficationList →
  enter s st = DocumentSection.__enter__ s st.
Proof. unfold enter. by destruct (class s). Qed.

End section_claims.

(** C3: once a section has been entered, leaving the [with] block closes the
    section's element and then flushes the stream, whether the body returned
    or raised; what the body returned or raised is passed on to the caller. *)
Theorem section_exit_closes_and_flushes `{Components} {A : Type}
    (s s1 : section_object) (body : M A) (r : result A) (st st1 st2 : state) :
  enter s st = (Ok s1, st1) →
  body st1 = (r, st2) →
  py_with s body st
  = (r, State (stream st2 ++ [EvEnd (section_element s); EvFlush])
          (context st2) (warnings st2)).
Proof.
  intros Henter Hbody.
  pose proof (enter_ok_entered s st s1 st1 Henter) as ->.
  rewrite (with_run s body st st1 Henter). by rewrite Hbody.
Qed.

(** C7: entering a section that has no element yet creates the element,
    records the [id] argument in the registry when there is one, opens the
    element on the stream and writes the queued parameters right after it, in
    order; only then does the body of the [with] block run. *)
Theorem enter_opens_element_then_params `{Components}
    (s : section_object) (st : state) :
  toplevel s = None →
  let el := Element (section s) (section_args s) in
  let ctx :=
    match section_args s !! "id" with
    | Some i =>
        <[section s := <[element_id el := i]>
                         (Registry.category (section s) (context st))]> (context st)
    | None => context st
    end in
  let st' := State (stream st ++ EvBegin el (has_id s) :: (EvParam <$> params s))
               ctx (warnings st) in
  DocumentSection.__enter__ s st = (Ok (entered s), st')
  ∧ toplevel (entered s) = Some el
  ∧ (class s ≠ SpectrumIdentficationList →
     ∀ (A : Type) (body : M A),
       py_with s body st
       = let '(r, st2) := body st' in (r, add_events [EvEnd el; EvFlush] st2)).
Proof.
  intros Htop el ctx st'.
  assert (Hel : section_element s = el).
  { unfold section_element. by rewrite Htop. }
  assert (Hrun : DocumentSection.__enter__ s st = (Ok (entered s), st')).
  { rewrite base_enter_run. rewrite Hel. f_equal.
    unfold context_created. rewrite Htop, Hel. fold ctx. reflexivity. }
  split; [exact Hrun|]. split.
  - simpl. by rewrite Hel.
  - intros Hcls A body. rewrite <- Hel.
    apply with_run. by rewrite plain_enter_run.
Qed.

Section protein_detection_list_facts.
Context `{Components}.

Lemma pdl_args_params id count params (kwargs : gmap string value) :
  (<["id" := id]> (<["count" := count]> (<["params" := params]> kwargs)) ∪ ∅)
    !! "params" = Some params.
Proof. rewrite (right_id ∅ (∪)). by simplify_map_eq. Qed.

Lemma pdl_args_count id count params (kwargs : gmap string value) :
  delete "params"
    (<["id" := id]> (<["count" := count]> (<["params" := params]> kwargs)) ∪ ∅)
    !! "count" = Some count.
Proof. rewrite (right_id ∅ (∪)). by simplify_map_eq. Qed.

Lemma pdl_base_run id count params kwargs ps st :
  prepare_params params = Ok ps →
  DocumentSection.__init__ ProteinDetectionList "ProteinDetectionList" None
    (<["id" := id]> (<["count" := count]> (<["params" := params]> kwargs))) st
  = (Ok (pdl_base id count params kwargs ps), st).
Proof.
  intros Hps. rewrite init_run. cbn [default from_option]. cbv zeta.
  rewrite pdl_args_params. cbn [default from_option Datatypes.id]. by rewrite Hps.
Qed.

End protein_detection_list_facts.

Ltac pdl_simpl :=
  cbn [class section section_args params toplevel _context_manager fragmentation_table];
  rewrite ?pdl_args_count;
  cbn [default from_option Datatypes.id].

(** C2: when the protein count comes both as the [count] argument and as a
    parameter with accession MS:1002404, building the protein detection list
    section raises, and the session is left as it was: nothing has been
    written to the stream, nothing registered and no warning given. *)
Theorem protein_count_conflict_raises `{Components}
    (id count raw : value) (kwargs : gmap string value)
    (ps : list Param) (st : state) :
  prepare_params raw = Ok ps →
  is_None count = false →
  existsb ProteinDetectionListSection.is_count_param ps = true →
  MzIdentMLWriter.protein_detection_list id count raw kwargs st
  = (Raise ValueError, st).
Proof.
  intros Hps Hcount Hparam.
  unfold MzIdentMLWriter.protein_detection_list, ProteinDetectionListSection.__init__.
  rewrite (bind_ok _ _ _ _ _ (pdl_base_run id count raw kwargs ps st Hps)).
  cbv zeta. unfold pdl_base. pdl_simpl.
  rewrite Hcount, Hparam. cbn [andb negb].
  rewrite (bind_ok _ _ _ _ _ (ret_run _ _)).
  by rewrite (bind_raise _ _ _ ValueError st).
Qed.

(** C6: when the protein count comes neither as the [count] argument nor as
    a parameter with accession MS:1002404, building the section gives one
    warning and succeeds; the section has the prepared parameters and no
    count attribute, and entering it opens the element and writes those
    parameters, none of which is a count. *)
Theorem protein_count_missing_warns `{Components}
    (id raw : value) (kwargs : gmap string value)
    (ps : list Param) (st : state) :
  prepare_params raw = Ok ps →
  existsb ProteinDetectionListSection.is_count_param ps = false →
  ∃ s,
    MzIdentMLWriter.protein_detection_list id VNone raw kwargs st
    = (Ok s, State (stream st) (context st) (warnings st ++ [CountMissing]))
    ∧ params s = ps
    ∧ section_args s = <["id" := id]> (delete "count" (delete "params" kwargs))
    ∧ toplevel s = None
    ∧ ∀ st1,
        enter s st1
        = (Ok (entered s),
           add_events (EvBegin (Element "ProteinDetectionList" (section_args s)) true
                         :: (EvParam <$> ps))
             (with_context (context_created s (context st1)) st1)).
Proof.
  intros Hps Hparam.
  eexists. split; [|split; [|split; [|split]]].
  - unfold MzIdentMLWriter.protein_detection_list, ProteinDetectionListSection.__init__.
    rewrite (bind_ok _ _ _ _ _ (pdl_base_run id VNone raw kwargs ps st Hps)).
    cbv zeta. unfold pdl_base. pdl_simpl. cbn [is_None VNone].
    rewrite Hparam. cbn [andb negb].
    rewrite (bind_ok _ _ _ _ _ (eq_refl : warn CountMissing st = (Ok tt, _))).
    rewrite (bind_ok _ _ _ _ _ (ret_run _ _)).
    rewrite ret_run. reflexivity.
  - reflexivity.
  - cbn [section_args].
    rewrite (right_id ∅ (∪)).
    apply map_eq. intros k.
    destruct (decide (k = "id")) as [->|Hid]; [by simplify_map_eq|].
    destruct (decide (k = "count")) as [->|Hc]; [by simplify_map_eq|].
    destruct (decide (k = "params")) as [->|Hp]; by simplify_map_eq.
  - reflexivity.
  - intros st1. rewrite plain_enter_run by done.
    rewrite base_enter_run. unfold section_element, has_id. cbn.
    rewrite bool_decide_eq_true_2; [done|].
    rewrite (right_id ∅ (∪)). eexists. by simplify_map_eq.
Qed.

Section construction_facts.
Context `{Components}.

Lemma base_init_not_materialized cls tag sargs kwargs st :
  not_materialized st (DocumentSection.__init__ cls tag sargs kwargs st).
Proof.
  rewrite init_run. cbv zeta.
  destruct (prepare_params _); by repeat split.
Qed.

Lemma sil_init_not_materialized sargs kwargs st :
  not_materialized st (SpectrumIdentficationListSection.__init__ sargs kwargs st).
Proof.
  unfold SpectrumIdentficationListSection.__init__. rewrite bind_run.
  pose proof (base_init_not_materialized SpectrumIdentficationList
                "SpectrumIdentificationList" sargs kwargs st) as Hbase.
  destruct (DocumentSection.__init__ _ _ _ _ _) as [[s|e] st1]; [|exact Hbase].
  destruct Hbase as (Hs & Hc & Htop & Hcm). simpl in *.
  rewrite ret_run. by repeat split.
Qed.

Lemma pdl_init_not_materialized sargs kwargs st :
  not_materialized st (ProteinDetectionListSection.__init__ sargs kwargs st).
Proof.
  unfold ProteinDetectionListSection.__init__. rewrite bind_run.
  pose proof (base_init_not_materialized ProteinDetectionList
                "ProteinDetectionList" sargs kwargs st) as Hbase.
  destruct (DocumentSection.__init__ _ _ _ _ _) as [[s|e] st1]; [|exact Hbase].
  destruct Hbase as (Hs & Hc & Htop & Hcm). simpl in Hs, Hc, Htop, Hcm.
  cbv zeta. cbn [params section_args class section toplevel _context_manager fragmentation_table].
  rewrite bind_run.
  destruct (is_None _ && negb _);
    [ replace (warn CountMissing st1)
        with (Ok tt, State (stream st1) (context st1) (warnings st1 ++ [CountMissing]))
        by reflexivity
    | rewrite ret_run ];
    rewrite bind_run;
    (destruct (negb (is_None _) && existsb _ _);
       [ unfold raise; by repeat split | rewrite ret_run ]);
    (destruct (negb (is_None _));
       [ rewrite bind_run; unfold lift; destruct (py_int _); [rewrite ret_run|]
       | rewrite ret_run ]);
    by repeat split.
Qed.

End construction_facts.

(** C9: the element of a section is created lazily and once. No constructor
    creates it nor touches the stream or the registry; [_create_element]
    gives the section an element, the one it already holds if there is one,
    and a second call changes neither the section object nor the session. *)
Theorem create_element_lazy_and_idempotent `{Components}
    (cls : section_class) (tag : string) (sargs : option (gmap string value))
    (kwargs : gmap string value) (s : section_object) (st : state) :
  not_materialized st (DocumentSection.__init__ cls tag sargs kwargs st)
  ∧ not_materialized st (SpectrumIdentficationListSection.__init__ sargs kwargs st)
  ∧ not_materialized st (ProteinDetectionListSection.__init__ sargs kwargs st)
  ∧ (let '(r1, st1) := DocumentSection._create_element s st in
     ∃ s1, r1 = Ok s1
       ∧ toplevel s1 = Some (default (Element (section s) (section_args s)) (toplevel s))
       ∧ DocumentSection._create_element s1 st1 = (Ok s1, st1)).
Proof.
  split; [apply base_init_not_materialized|].
  split; [apply sil_init_not_materialized|].
  split; [apply pdl_init_not_materialized|].
  rewrite create_element_run.
  eexists. split; [reflexivity|]. split.
  - unfold section_element.
    destruct (toplevel s) as [el|] eqn:Htop; simpl; [exact Htop|reflexivity].
  - rewrite create_element_run.
    unfold context_created, with_context, section_element.
    destruct (toplevel s) as [el|] eqn:Htop; simpl; [rewrite Htop|]; by destruct st.
Qed.

(** C8: the section that [spectrum_identification_list] returns holds the
    given measures table, or the default fragmentation table when [measures]
    is [None]; entering it opens the element, writes the queued parameters
    and then the table, and only then runs the body of the [with] block. *)
Theorem spectrum_identification_list_writes_table `{Components}
    (id : value) (measures : option component) (ps : list Param) (st : state) :
  prepare_params (VList []) = Ok ps →
  let table := default FragmentationTable measures in
  let el := Element "SpectrumIdentificationList" {[ "id" := id ]} in
  let ctx :=
    <["SpectrumIdentificationList" :=
        <[element_id el := id]>
          (Registry.category "SpectrumIdentificationList" (context st))]> (context st) in
  let st' := State (stream st ++ EvBegin el true :: (EvParam <$> ps) ++ [EvWrite table])
               ctx (warnings st) in
  ∃ s,
    MzIdentMLWriter.spectrum_identification_list id
      (match measures with Some c => VObj c | None => VNone end) st = (Ok s, st)
    ∧ fragmentation_table s = VObj table
    ∧ enter s st = (Ok (entered s), st')
    ∧ ∀ (A : Type) (body : M A),
        py_with s body st
        = let '(r, st2) := body st' in (r, add_events [EvEnd el; EvFlush] st2).
Proof.
  intros Hps table el ctx st'.
  set (arg := match measures with Some c => VObj c | None => VNone end).
  assert (Harg : (if is_None arg then VObj FragmentationTable else arg) = VObj table).
  { unfold arg, table. by destruct measures. }
  set (s := SectionObject SpectrumIdentficationList "SpectrumIdentificationList"
              {[ "id" := id ]} ps None None (VObj table)).
  assert (Hinit : MzIdentMLWriter.spectrum_identification_list id arg st = (Ok s, st)).
  { unfold MzIdentMLWriter.spectrum_identification_list. rewrite Harg.
    unfold SpectrumIdentficationListSection.__init__.
    rewrite bind_run, init_run. cbn [default from_option Datatypes.id]. cbv zeta.
    assert (Hargs : <["id" := id]> {[ "fragmentation_table" := VObj table ]} ∪ ∅
                    = <["id" := id]> ({[ "fragmentation_table" := VObj table ]}
                                        : gmap string value))
      by apply (right_id ∅ (∪)).
    rewrite Hargs.
    rewrite lookup_insert_ne by done. rewrite lookup_singleton_ne by done.
    cbn [default from_option Datatypes.id].
    rewrite Hps. rewrite ret_run.
    cbn [class section section_args params toplevel _context_manager].
    assert (Hlook : delete "params"
                      (<["id" := id]> ({[ "fragmentation_table" := VObj table ]}
                                         : gmap string value))
                    !! "fragmentation_table" = Some (VObj table))
      by by simplify_map_eq.
    assert (Hrest : delete "fragmentation_table"
                      (delete "params"
                         (<["id" := id]> ({[ "fragmentation_table" := VObj table ]}
                                            : gmap string value)))
                    = {[ "id" := id ]}).
    { apply map_eq. intros k.
      destruct (decide (k = "id")) as [->|Hid]; [by simplify_map_eq|].
      destruct (decide (k = "fragmentation_table")) as [->|Hf]; [by simplify_map_eq|].
      destruct (decide (k = "params")) as [->|Hp]; by simplify_map_eq. }
    rewrite Hlook, Hrest. reflexivity. }
  assert (Henter : enter s st = (Ok (entered s), st')).
  { rewrite (sil_enter_run s st table) by done.
    unfold section_element, has_id, context_created, with_context, add_events. simpl.
    rewrite lookup_singleton_eq. rewrite bool_decide_eq_true_2 by eauto.
    reflexivity. }
  exists s. split; [exact Hinit|]. split; [done|]. split; [exact Henter|].
  intros A body. by rewrite (with_run s body st st' Henter).
Qed.

(** ** Providence *)

Section providence_facts.
Context `{Components}.

Lemma write_run c st : Component.write c st = (Ok tt, add_events [EvWrite c] st).
Proof. reflexivity. Qed.

Lemma register_run cat k st :
  register cat k st
  = (Ok (Registry.register cat k (context st)).1,
     with_context (Registry.register cat k (context st)).2 st).
Proof. unfold register. by destruct (Registry.register cat k (context st)). Qed.

Lemma ensure_each_nil cat arg st :
  Component.ensure_iterable arg = [] →
  MzIdentMLWriter.ensure_each cat arg st = (Ok [], st).
Proof. intros Harg. unfold MzIdentMLWriter.ensure_each. by rewrite Harg. Qed.

Lemma construct_auto_run cat args kwargs st :
  Component.assoc "id" kwargs = None →
  Component.construct cat args kwargs st
  = (Ok (Node cat (Registry.register cat Registry.AUTO (context st)).1 args kwargs),
     with_context (Registry.register cat Registry.AUTO (context st)).2 st).
Proof.
  intros Hid. unfold Component.construct. rewrite Hid.
  by rewrite (bind_ok _ _ _ _ _ (register_run _ _ _)).
Qed.

Lemma construct_key_run cat args kwargs k st :
  Component.assoc "id" kwargs = Some (VScalar k) →
  Component.construct cat args kwargs st
  = (Ok (Node cat (Registry.register cat (Registry.Key k) (context st)).1 args kwargs),
     with_context (Registry.register cat (Registry.Key k) (context st)).2 st).
Proof.
  intros Hid. unfold Component.construct. rewrite Hid.
  by rewrite (bind_ok _ _ _ _ _ (register_run _ _ _)).
Qed.

Lemma providence_run software owner organization st orgs st1 owners st2 sw st3 :
  MzIdentMLWriter.ensure_each "Organization" organization st = (Ok orgs, st1) →
  MzIdentMLWriter.ensure_each "Person" owner st1 = (Ok owners, st2) →
  MzIdentMLWriter.ensure_each "AnalysisSoftware" software st2 = (Ok sw, st3) →
  MzIdentMLWriter.providence software owner organization st
  = if MzIdentMLWriter.is_nil owners && MzIdentMLWriter.is_nil orgs
    then
      let reg1 := (Registry.register "Organization"
                     (Registry.Key DEFAULT_ORGANIZATION_ID) (context st3)).2 in
      let person := Registry.register "Person" Registry.AUTO reg1 in
      let org := Registry.register "Organization"
                   (Registry.Key DEFAULT_ORGANIZATION_ID) person.2 in
      (Ok tt,
       add_events
         (providence_events sw
            [Node "Person" person.1 []
               [("affiliation"%string, VScalar DEFAULT_ORGANIZATION_ID)]]
            [Node "Organization" org.1 []
               [("id"%string, VScalar DEFAULT_ORGANIZATION_ID)]])
         (with_context org.2 st3))
    else (Ok tt, add_events (providence_events sw owners orgs) st3).
Proof.
  intros Horg Hown Hsw. unfold MzIdentMLWriter.providence.
  rewrite (bind_ok _ _ _ _ _ Horg), (bind_ok _ _ _ _ _ Hown), (bind_ok _ _ _ _ _ Hsw).
  destruct (MzIdentMLWriter.is_nil owners && MzIdentMLWriter.is_nil orgs).
  - cbv zeta.
    erewrite bind_ok; cycle 1.
    { rewrite (bind_ok _ _ _ _ _ (register_run _ _ _)).
      rewrite (bind_ok _ _ _ _ _
                 (construct_auto_run "Person" []
                    [("affiliation"%string, VScalar DEFAULT_ORGANIZATION_ID)] _ eq_refl)).
      rewrite (bind_ok _ _ _ _ _
                 (construct_key_run "Organization" []
                    [("id"%string, VScalar DEFAULT_ORGANIZATION_ID)]
                    DEFAULT_ORGANIZATION_ID _ eq_refl)).
      rewrite ret_run. reflexivity. }
    cbv beta iota.
    rewrite (bind_ok _ _ _ _ _ (write_run _ _)).
    rewrite (bind_ok _ _ _ _ _ (write_run _ _)).
    rewrite write_run, !add_events_app. reflexivity.
  - rewrite bind_run, ret_run. cbv beta iota.
    rewrite (bind_ok _ _ _ _ _ (write_run _ _)).
    rewrite (bind_ok _ _ _ _ _ (write_run _ _)).
    rewrite write_run, !add_events_app. reflexivity.
Qed.

End providence_facts.

Section providence_claims.
Context `{Components}.

Lemma mapM_length {A B} (f : A → M B) l st ys st' :
  mapM f l st = (Ok ys, st') → length ys = length l.
Proof.
  revert st ys st'. induction l as [|x l IH]; intros st ys st'; simpl.
  - rewrite ret_run. by intros [= <- _].
  - rewrite bind_run. destruct (f x st) as [[y|e] st1]; [|by intros [=]].
    rewrite bind_run. destruct (mapM f l st1) as [[zs|e] st2] eqn:Hl; [|by intros [=]].
    rewrite ret_run. intros [= <- _]. simpl. f_equal. exact (IH _ _ _ Hl).
Qed.

Lemma ensure_each_length cat arg st cs st' :
  MzIdentMLWriter.ensure_each cat arg st = (Ok cs, st') →
  length cs = length (Component.ensure_iterable arg).
Proof. apply mapM_length. Qed.

Lemma register_default_org (reg : Registry.registry) :
  let d := DEFAULT_ORGANIZATION_ID in
  let oid := default (VScalar d) (Registry.category "Organization" reg !! d) in
  let r := Registry.register "Organization" (Registry.Key d) reg in
  r.1 = oid
  ∧ Registry.category "Organization" r.2
    = <[d := oid]> (Registry.category "Organization" reg).
Proof.
  intros d oid r. unfold r, oid, Registry.register.
  destruct (Registry.category "Organization" reg !! d) as [i|] eqn:Hd; simpl.
  - split; [done|]. by rewrite insert_id.
  - split; [done|]. by rewrite category_insert.
Qed.

Lemma register_person_keeps_org (reg : Registry.registry) :
  Registry.category "Organization" (Registry.register "Person" Registry.AUTO reg).2
  = Registry.category "Organization" reg.
Proof. unfold Registry.register. simpl. by rewrite category_insert_ne. Qed.

End providence_claims.

(** C5: with no owner and no organization, [providence] registers the
    default organization identifier, builds one person whose affiliation is
    that identifier and one organization built from that identifier, and
    writes them. Afterwards the organization category holds what it held
    before and the default identifier, which resolves to the identifier of
    the organization that was written: the default identifier itself, unless
    the session had mapped it to something else before. *)
Theorem providence_injects_default `{Components}
    (software owner organization : value) (sw : list component) (st st1 : state) :
  Component.ensure_iterable owner = [] →
  Component.ensure_iterable organization = [] →
  MzIdentMLWriter.ensure_each "AnalysisSoftware" software st = (Ok sw, st1) →
  let d := DEFAULT_ORGANIZATION_ID in
  let reg := context st1 in
  let oid := default (VScalar d) (Registry.category "Organization" reg !! d) in
  let reg1 := (Registry.register "Organization" (Registry.Key d) reg).2 in
  let '(pid, reg2) := Registry.register "Person" Registry.AUTO reg1 in
  let person := Node "Person" pid [] [("affiliation"%string, VScalar d)] in
  let org := Node "Organization" oid [] [("id"%string, VScalar d)] in
  MzIdentMLWriter.providence software owner organization st
  = (Ok tt,
     State (stream st1
              ++ [ EvWrite (Component.GenericCollection "AnalysisSoftwareList" sw);
                   EvWrite (Component.Provider pid);
                   EvWrite (Component.AuditCollection [person] [org]) ])
       reg2 (warnings st1))
  ∧ Registry.category "Organization" reg2
    = <[d := oid]> (Registry.category "Organization" reg)
  ∧ Registry.resolve "Organization" d reg2 = Ok oid.
Proof.
  intros Hown Horg Hsw d reg oid reg1.
  destruct (register_default_org reg) as [Hoid Hcat]. fold d oid reg1 in Hoid, Hcat.
  pose proof (register_person_keeps_org reg1) as Hkeep.
  destruct (Registry.register "Person" Registry.AUTO reg1) as [pid reg2] eqn:Hp.
  simpl in Hkeep.
  assert (Hlook : Registry.category "Organization" reg2 !! d = Some oid).
  { rewrite Hkeep, Hcat. apply lookup_insert_eq. }
  split; [|split].
  - rewrite (providence_run software owner organization st [] st [] st sw st1
               (ensure_each_nil _ _ _ Horg) (ensure_each_nil _ _ _ Hown) Hsw).
    cbn [MzIdentMLWriter.is_nil andb]. cbv zeta.
    fold d reg reg1. rewrite Hp. cbn [fst snd].
    rewrite (register_key_mapped "Organization" d reg2 oid Hlook).
    reflexivity.
  - by rewrite Hkeep.
  - unfold Registry.resolve. by rewrite Hlook.
Qed.

(** C10: the default pair is injected only when neither an owner nor an
    organization is given. With at least one owner the provider's contact is
    the identifier of the first owner; with organizations only it is [None];
    in both cases the audit collection holds the given owners and
    organizations and nothing else, and the registry is the one the given
    records left. *)
Theorem providence_uses_given_owner `{Components}
    (software owner organization : value)
    (orgs owners sw : list component) (st st1 st2 st3 : state) :
  MzIdentMLWriter.ensure_each "Organization" organization st = (Ok orgs, st1) →
  MzIdentMLWriter.ensure_each "Person" owner st1 = (Ok owners, st2) →
  MzIdentMLWriter.ensure_each "AnalysisSoftware" software st2 = (Ok sw, st3) →
  length owners = length (Component.ensure_iterable owner)
  ∧ length orgs = length (Component.ensure_iterable organization)
  ∧ (∀ o os, owners = o :: os →
       MzIdentMLWriter.providence software owner organization st
       = (Ok tt,
          State (stream st3
                   ++ [ EvWrite (Component.GenericCollection "AnalysisSoftwareList" sw);
                        EvWrite (Component.Provider (c_id o));
                        EvWrite (Component.AuditCollection owners orgs) ])
            (context st3) (warnings st3)))
  ∧ (owners = [] → orgs ≠ [] →
       MzIdentMLWriter.providence software owner organization st
       = (Ok tt,
          State (stream st3
                   ++ [ EvWrite (Component.GenericCollection "AnalysisSoftwareList" sw);
                        EvWrite (Component.Provider VNone);
                        EvWrite (Component.AuditCollection [] orgs) ])
            (context st3) (warnings st3))).
Proof.
  intros Horg Hown Hsw.
  split; [by eapply ensure_each_length|].
  split; [by eapply ensure_each_length|].
  rewrite (providence_run _ _ _ _ _ _ _ _ _ _ Horg Hown Hsw).
  split.
  - intros o os ->. reflexivity.
  - intros -> Hne. destruct orgs as [|o orgs]; [done|]. reflexivity.
Qed.

(** ** Tolerances *)

(** C1: a bare number handed to [spectrum_identification_protocol] as
    fragment or parent tolerance becomes a parts-per-million tolerance with
    the number times 1e6 as its value when it is below 1e-4, and a dalton
    tolerance with the number itself otherwise: 5e-6 gives 5.0 ppm, 0.02
    gives 0.02 dalton, 1e-4 itself is dalton and the next number below it is
    parts per million. *)
Theorem tolerance_unit_policy (x y : float) :
  let emitted (cls : string) (v : float) (t : option Tolerance.tolerance) : Prop :=
    if (v <? 1e-4)%float
    then t = Some (Tolerance.Tol cls
                     [Tolerance.AFloat (v * 1e6)%float; Tolerance.ANone;
                      Tolerance.AStr "parts per million"])
    else t = Some (Tolerance.Tol cls
                     [Tolerance.AFloat v; Tolerance.ANone; Tolerance.AStr "dalton"]) in
  let '(fragment, parent) :=
    Tolerance.protocol_tolerances (Tolerance.ArgNumber x) (Tolerance.ArgNumber y) in
  emitted "FragmentTolerance"%string x fragment
  ∧ emitted "ParentTolerance"%string y parent
  ∧ Tolerance.classify_tolerance "FragmentTolerance" (Tolerance.ArgNumber 5e-6%float)
    = Some (Tolerance.Tol "FragmentTolerance"
              [Tolerance.AFloat 5%float; Tolerance.ANone;
               Tolerance.AStr "parts per million"])
  ∧ Tolerance.classify_tolerance "FragmentTolerance" (Tolerance.ArgNumber 0.02%float)
    = Some (Tolerance.Tol "FragmentTolerance"
              [Tolerance.AFloat 0.02%float; Tolerance.ANone; Tolerance.AStr "dalton"])
  ∧ Tolerance.classify_tolerance "ParentTolerance" (Tolerance.ArgNumber 1e-4%float)
    = Some (Tolerance.Tol "ParentTolerance"
              [Tolerance.AFloat 1e-4%float; Tolerance.ANone; Tolerance.AStr "dalton"])
  ∧ Tolerance.classify_tolerance "ParentTolerance"
      (Tolerance.ArgNumber 0x1.a36e2eb1c432cp-14%float)
    = Some (Tolerance.Tol "ParentTolerance"
              [Tolerance.AFloat (0x1.a36e2eb1c432cp-14 * 1e6)%float; Tolerance.ANone;
               Tolerance.AStr "parts per million"]).
Proof.
  intros emitted. unfold Tolerance.protocol_tolerances.
  split; [|split].
  - unfold emitted, Tolerance.classify_tolerance. by destruct (x <? 1e-4)%float.
  - unfold emitted, Tolerance.classify_tolerance. by destruct (y <? 1e-4)%float.
  - repeat split; vm_compute; reflexivity.
Qed.

(** ** The claims on a concrete session *)

Section examples.
Import Reference.
Local Existing Instance Reference.components.

Lemma protein_count_conflict_raises_witness :
  MzIdentMLWriter.protein_detection_list (VScalar (SInt 1)) (VScalar (SInt 10))
    (VList [count_record]) ∅ empty_state
  = (Raise ValueError, empty_state).
Proof.
  apply (@protein_count_conflict_raises Reference.components _ _ _ _ [param_of count_record]);
    reflexivity.
Defined.

Example sequence_collection_demo :
  MzIdentMLWriter.sequence_collection empty_state = (Ok sequence_section, empty_state).
Proof. reflexivity. Qed.

Lemma section_exit_closes_and_flushes_witness :
  let el := Element "SequenceCollection" {[ "xmlns"%string := _xmlns ]} in
  py_with sequence_section failing_body empty_state
  = (Raise (OtherError "accession is missing"),
     State [ EvBegin el false;
             EvWrite (Node "DBSequence" (VScalar (SStr "DBSeq_1")) [] []);
             EvEnd el; EvFlush ] ∅ []).
Proof.
  exact (@section_exit_closes_and_flushes Reference.components unit sequence_section (entered sequence_section)
           failing_body (Raise (OtherError "accession is missing"))
           empty_state _ _ eq_refl eq_refl).
Defined.

Lemma enter_opens_element_then_params_witness :
  let el := Element "ProteinDetectionList" {[ "id"%string := VScalar (SInt 1) ]} in
  let reg : Registry.registry :=
    {[ "ProteinDetectionList"%string := {[ SInt 1 := VScalar (SInt 1) ]} ]} in
  DocumentSection.__enter__ detection_section empty_state
  = (Ok (entered detection_section),
     State [EvBegin el true; EvParam (param_of count_record)] reg [])
  ∧ py_with detection_section failing_body empty_state
    = (Raise (OtherError "accession is missing"),
       State [ EvBegin el true; EvParam (param_of count_record);
               EvWrite (Node "DBSequence" (VScalar (SStr "DBSeq_1")) [] []);
               EvEnd el; EvFlush ] reg []).
Proof.
  pose proof (@enter_opens_element_then_params Reference.components
                detection_section empty_state eq_refl) as (Henter & _ & Hwith).
  split; [exact Henter|].
  match goal with
  | |- ?G => exact (Hwith ltac:(discriminate) unit failing_body <: G)
  end.
Defined.

Lemma protein_count_missing_warns_witness :
  ∃ s,
    MzIdentMLWriter.protein_detection_list (VScalar (SInt 1)) VNone VNone ∅
      empty_state
    = (Ok s, State [] ∅ [CountMissing])
    ∧ params s = [].
Proof.
  destruct (@protein_count_missing_warns Reference.components (VScalar (SInt 1)) VNone ∅ []
              empty_state eq_refl eq_refl) as (s & Hrun & Hps & _).
  exists s. split; [exact Hrun | exact Hps].
Defined.

Lemma spectrum_identification_list_writes_table_witness :
  let el := Element "SpectrumIdentificationList" {[ "id"%string := VScalar (SInt 1) ]} in
  ∃ s,
    MzIdentMLWriter.spectrum_identification_list (VScalar (SInt 1)) VNone
      empty_state
    = (Ok s, empty_state)
    ∧ enter s empty_state
      = (Ok (entered s),
         State [EvBegin el true; EvWrite (Node "FragmentationTable" VNone [] [])]
           {[ "SpectrumIdentificationList"%string := {[ SInt 1 := VScalar (SInt 1) ]} ]}
           []).
Proof.
  destruct (@spectrum_identification_list_writes_table Reference.components (VScalar (SInt 1)) None []
              empty_state eq_refl) as (s & Hrun & _ & Henter & _).
  exists s. split; [exact Hrun | exact Henter].
Defined.

Lemma providence_injects_default_witness :
  let person := Node "Person" (VScalar (SStr "Person_1")) []
                  [("affiliation"%string, default_org)] in
  let org := Node "Organization" default_org [] [("id"%string, default_org)] in
  let reg : Registry.registry :=
    {[ "Organization"%string := {[ SStr "ORG_DOC_OWNER" := default_org ]};
       "Person"%string := {[ SStr "Person_1" := VScalar (SStr "Person_1") ]} ]} in
  MzIdentMLWriter.providence (VList []) (VList []) (VList []) empty_state
  = (Ok tt,
     State [ EvWrite (Component.GenericCollection "AnalysisSoftwareList" []);
             EvWrite (Component.Provider (VScalar (SStr "Person_1")));
             EvWrite (Component.AuditCollection [person] [org]) ] reg [])
  ∧ Registry.category "Organization" reg = {[ SStr "ORG_DOC_OWNER" := default_org ]}
  ∧ Registry.resolve "Organization" (SStr "ORG_DOC_OWNER") reg = Ok default_org.
Proof.
  match goal with
  | |- ?G =>
      exact (@providence_injects_default Reference.components
               (VList []) (VList []) (VList []) []
               empty_state empty_state eq_refl eq_refl eq_refl
             <: G)
  end.
Defined.

Lemma providence_uses_given_owner_witness :
  let owner := Node "Person" (VScalar (SStr "P1")) []
                 [ ("id"%string, VScalar (SStr "P1"));
                   ("last_name"%string, VScalar (SStr "Doe")) ] in
  let org := Node "Organization" (VScalar (SStr "O1")) []
               [ ("id"%string, VScalar (SStr "O1"));
                 ("name"%string, VScalar (SStr "Lab")) ] in
  MzIdentMLWriter.providence (VList []) owner_record (VList []) empty_state
  = (Ok tt,
     State [ EvWrite (Component.GenericCollection "AnalysisSoftwareList" []);
             EvWrite (Component.Provider (VScalar (SStr "P1")));
             EvWrite (Component.AuditCollection [owner] []) ]
       {[ "Person"%string := {[ SStr "P1" := VScalar (SStr "P1") ]} ]} [])
  ∧ MzIdentMLWriter.providence (VList []) (VList []) org_record empty_state
    = (Ok tt,
       State [ EvWrite (Component.GenericCollection "AnalysisSoftwareList" []);
               EvWrite (Component.Provider VNone);
               EvWrite (Component.AuditCollection [] [org]) ]
         {[ "Organization"%string := {[ SStr "O1" := VScalar (SStr "O1") ]} ]} []).
Proof.
  split.
  - pose proof (@providence_uses_given_owner Reference.components (VList []) owner_record (VList [])
                  _ _ _ empty_state _ _ _ eq_refl eq_refl eq_refl)
      as (_ & _ & Hown & _).
    exact (Hown _ _ eq_refl).
  - pose proof (@providence_uses_given_owner Reference.components (VList []) (VList []) org_record
                  _ _ _ empty_state _ _ _ eq_refl eq_refl eq_refl)
      as (_ & _ & _ & Horg).
    refine (Horg eq_refl _). discriminate.
Defined.

End examples.

(** The registry on a small run: generated identifiers step over explicit
    ones, and an explicit key keeps its identifier. *)
Example register_demo :
  Registry.register_all
    [ ("Peptide"%string, Registry.AUTO);
      ("Peptide"%string, Registry.Key (SStr "Peptide_2"));
      ("Peptide"%string, Registry.AUTO);
      ("Peptide"%string, Registry.Key (SInt 7));
      ("Peptide"%string, Registry.Key (SInt 7)) ] ∅
  = ([ VScalar (SStr "Peptide_1"); VScalar (SStr "Peptide_2");
       VScalar (SStr "Peptide_3"); VScalar (SInt 7); VScalar (SInt 7) ],
     {[ "Peptide"%string :=
          {[ SStr "Peptide_1" := VScalar (SStr "Peptide_1");
             SStr "Peptide_2" := VScalar (SStr "Peptide_2");
             SStr "Peptide_3" := VScalar (SStr "Peptide_3");
             SInt 7 := VScalar (SInt 7) ]} ]}).
Proof.
  match goal with
  | |- ?l = ?r => exact (@eq_refl _ r <: l = r)
  end.
Qed.

(** * Further properties *)

(** ** Nesting *)

Lemma nesting_app open evs1 evs2 :
  nesting open (evs1 ++ evs2)
  = match nesting open evs1 with
    | Some open' => nesting open' evs2
    | None => None
    end.
Proof.
  revert open. induction evs1 as [|e evs1 IH]; intros open; simpl; [done|].
  destruct e as [el w|p|c|el|]; try apply IH.
  destruct open as [|t open]; [done|].
  destruct (String.eqb t (el_tag el)); [apply IH|done].
Qed.

Lemma nesting_params open ps : nesting open (EvParam <$> ps) = Some open.
Proof. induction ps as [|p ps IH]; simpl; done. Qed.

Lemma well_nested_app evs1 evs2 :
  well_nested evs1 → well_nested evs2 → well_nested (evs1 ++ evs2).
Proof. intros H1 H2 open. by rewrite nesting_app, H1, H2. Qed.

(** An element with neutral events inside, closed again and flushed. *)
Lemma well_nested_element el w inside :
  well_nested inside →
  well_nested (EvBegin el w :: inside ++ [EvEnd el; EvFlush]).
Proof.
  intros Hin open. simpl. rewrite nesting_app, Hin. simpl.
  by rewrite String.eqb_refl.
Qed.

Section nesting_facts.
Context `{Components}.

(** What entering a section of any class adds to the stream: the open tag,
    then events that open and close nothing. *)
Lemma enter_stream s st s1 st1 :
  enter s st = (Ok s1, st1) →
  ∃ inside,
    stream st1 = stream st ++ EvBegin (section_element s) (has_id s) :: inside
    ∧ well_nested inside.
Proof.
  unfold enter, SpectrumIdentficationListSection.__enter__.
  destruct (class s).
  - rewrite base_enter_run. intros [= _ <-].
    exists (EvParam <$> params s). split; [done|]. intros open. apply nesting_params.
  - rewrite (bind_ok _ _ _ _ _ (base_enter_run s st)).
    rewrite bind_run.
    destruct (truthy (fragmentation_table (entered s))).
    + destruct (fragmentation_table (entered s)) as [| | |c];
        [unfold raise; by intros [=].. |].
      rewrite emit_run, ret_run, add_events_app. intros [= _ <-].
      exists ((EvParam <$> params s) ++ [EvWrite c]). split; [done|].
      intros open. by rewrite nesting_app, nesting_params.
    + rewrite !ret_run. intros [= _ <-].
      exists (EvParam <$> params s). split; [done|]. intros open. apply nesting_params.
  - rewrite base_enter_run. intros [= _ <-].
    exists (EvParam <$> params s). split; [done|]. intros open. apply nesting_params.
Qed.

End nesting_facts.

(** X1: a [with] block keeps the stream well nested. If what the body
    writes closes every element it opens and no other, so does what the whole
    block writes, whether the body returns or raises. *)
Theorem with_keeps_stream_nested `{Components} {A : Type}
    (s s1 : section_object) (body : M A) (r : result A)
    (st st1 st2 : state) (written : list event) :
  enter s st = (Ok s1, st1) →
  body st1 = (r, st2) →
  stream st2 = stream st1 ++ written →
  well_nested written →
  ∃ all,
    py_with s body st
    = (r, State (stream st ++ all) (context st2) (warnings st2))
    ∧ well_nested all.
Proof.
  intros Henter Hbody Hst2 Hbodynest.
  destruct (enter_stream s st s1 st1 Henter) as (inside & Hst1 & Hinside).
  exists (EvBegin (section_element s) (has_id s)
            :: (inside ++ written) ++ [EvEnd (section_element s); EvFlush]).
  split.
  - pose proof (enter_ok_entered s st s1 st1 Henter) as ->.
    rewrite (with_run s body st st1 Henter), Hbody.
    unfold add_events. rewrite Hst2, Hst1. f_equal. f_equal.
    by simplify_list_eq.
  - apply well_nested_element. by apply well_nested_app.
Qed.

(** ** Entering and leaving *)

Section enter_facts.
Context `{Components}.



End enter_facts.


(** X3: leaving a section that was built but never entered raises
    [AttributeError], whatever constructor built it, and writes nothing: no
    closing tag and no flush. *)
Theorem exit_before_enter_raises `{Components}
    (sargs : option (gmap string value)) (kwargs : gmap string value)
    (cls : section_class) (tag : string) (s : section_object) (st st' : state) :
  DocumentSection.__init__ cls tag sargs kwargs st = (Ok s, st')
  ∨ SpectrumIdentficationListSection.__init__ sargs kwargs st = (Ok s, st')
  ∨ ProteinDetectionListSection.__init__ sargs kwargs st = (Ok s, st') →
  ∀ exc st1, DocumentSection.__exit__ s exc st1 = (Raise AttributeError, st1).
Proof.
  intros Hinit exc st1.
  assert (Hcm : _context_manager s = None).
  { destruct Hinit as [Hinit|[Hinit|Hinit]].
    - pose proof (base_init_not_materialized cls tag sargs kwargs st) as Hnm.
      rewrite Hinit in Hnm. by destruct Hnm as (_ & _ & _ & ?).
    - pose proof (sil_init_not_materialized sargs kwargs st) as Hnm.
      rewrite Hinit in Hnm. by destruct Hnm as (_ & _ & _ & ?).
    - pose proof (pdl_init_not_materialized sargs kwargs st) as Hnm.
      rewrite Hinit in Hnm. by destruct Hnm as (_ & _ & _ & ?). }
  unfold DocumentSection.__exit__. by rewrite Hcm.
Qed.

(** X4: entering a section that was given an [id] changes the registry at
    one place only: under the section's name, the identifier its element
    reports now maps to the [id] argument, replacing what was registered
    there before; every other registration is as it was. *)
Theorem enter_records_one_entry `{Components}
    (s : section_object) (i : value) (st : state) :
  toplevel s = None →
  section_args s !! "id" = Some i →
  let el := Element (section s) (section_args s) in
  let ctx := context (DocumentSection.__enter__ s st).2 in
  Registry.category (section s) ctx !! element_id el = Some i
  ∧ ∀ cat k, (cat, k) ≠ (section s, element_id el) →
      Registry.category cat ctx !! k = Registry.category cat (context st) !! k.
Proof.
  intros Htop Hid el ctx. unfold ctx. rewrite base_enter_run. simpl.
  unfold context_created, section_element. rewrite Htop, Hid. simpl. fold el.
  split.
  - by rewrite category_insert, lookup_insert_eq.
  - intros cat k Hne.
    destruct (decide (section s = cat)) as [<-|Hcat].
    + rewrite category_insert. rewrite lookup_insert_ne; [done|]. congruence.
    + by rewrite category_insert_ne.
Qed.

(** X5: the collection sections of the writer ([sequence_collection],
    [analysis_collection], [analysis_protocol_collection], [data_collection],
    [analysis_data]) carry the namespace as their only attribute. A [with]
    block on one of them opens the element without identifier, leaves the
    registry alone, runs the body, closes the element and flushes. *)
Theorem collection_section_registers_nothing `{Components} {A : Type}
    (tag : string) (ps : list Param) (body : M A) (st : state) :
  prepare_params (VList []) = Ok ps →
  let el := Element tag {[ "xmlns" := _xmlns ]} in
  ∃ s,
    MzIdentMLWriter.plain_section tag st = (Ok s, st)
    ∧ ∀ st1,
        py_with s body st1
        = let '(r, st2) :=
            body (State (stream st1 ++ EvBegin el false :: (EvParam <$> ps))
                    (context st1) (warnings st1)) in
          (r, State (stream st2 ++ [EvEnd el; EvFlush]) (context st2) (warnings st2)).
Proof.
  intros Hps el.
  set (s := SectionObject PlainSection tag {[ "xmlns" := _xmlns ]} ps None None VNone).
  assert (Hargs : ({[ "xmlns" := _xmlns ]} : gmap string value) ∪ ∅
                  = {[ "xmlns" := _xmlns ]}) by apply (right_id ∅ (∪)).
  exists s. split.
  - unfold MzIdentMLWriter.plain_section. rewrite init_run.
    cbn [default from_option Datatypes.id]. cbv zeta. rewrite Hargs.
    rewrite lookup_singleton_ne by done. cbn [default from_option Datatypes.id].
    rewrite Hps.
    assert (Hdel : delete "params" ({[ "xmlns" := _xmlns ]} : gmap string value)
                   = {[ "xmlns" := _xmlns ]}).
    { apply delete_id. by rewrite lookup_singleton_ne. }
    by rewrite Hdel.
  - intros st1.
    assert (Henter : enter s st1
                     = (Ok (entered s),
                        State (stream st1 ++ EvBegin el false :: (EvParam <$> ps))
                          (context st1) (warnings st1))).
    { rewrite plain_enter_run by done. rewrite base_enter_run.
      unfold section_element, has_id, context_created, with_context, add_events. simpl.
      rewrite lookup_singleton_ne by done.
      rewrite bool_decide_eq_false_2; [done|]. by intros [? [=]]. }
    rewrite (with_run s body st1 _ Henter). reflexivity.
Qed.

(** ** The protein detection list *)

Section protein_detection_list_runs.
Context `{Components}.

Lemma pdl_args_rest id count params (kwargs : gmap string value) :
  delete "count"
    (delete "params"
       (<["id" := id]> (<["count" := count]> (<["params" := params]> kwargs)) ∪ ∅))
  = <["id" := id]> (delete "count" (delete "params" kwargs)).
Proof.
  rewrite (right_id ∅ (∪)).
  apply map_eq. intros k.
  destruct (decide (k = "id")) as [->|Hid]; [by simplify_map_eq|].
  destruct (decide (k = "count")) as [->|Hc]; [by simplify_map_eq|].
  destruct (decide (k = "params")) as [->|Hp]; by simplify_map_eq.
Qed.

(** Every way [protein_detection_list] can go once the parameters are
    prepared. *)
Lemma pdl_run id count raw kwargs ps st :
  prepare_params raw = Ok ps →
  MzIdentMLWriter.protein_detection_list id count raw kwargs st
  = if is_None count
    then if existsb ProteinDetectionListSection.is_count_param ps
         then (Ok (pdl_section id kwargs ps), st)
         else (Ok (pdl_section id kwargs ps),
               State (stream st) (context st) (warnings st ++ [CountMissing]))
    else if existsb ProteinDetectionListSection.is_count_param ps
         then (Raise ValueError, st)
         else match py_int count with
              | Ok n =>
                  (Ok (pdl_section id kwargs
                         (ps ++ [param "count of identified proteins" n])), st)
              | Raise e => (Raise e, st)
              end.
Proof.
  intros Hps.
  unfold MzIdentMLWriter.protein_detection_list, ProteinDetectionListSection.__init__.
  rewrite (bind_ok _ _ _ _ _ (pdl_base_run id count raw kwargs ps st Hps)).
  cbv zeta. unfold pdl_base. pdl_simpl. rewrite pdl_args_rest.
  destruct (is_None count), (existsb ProteinDetectionListSection.is_count_param ps);
    cbn [andb negb].
  - rewrite (bind_ok _ _ _ _ _ (ret_run _ _)).
    rewrite (bind_ok _ _ _ _ _ (ret_run _ _)). by rewrite ret_run.
  - rewrite (bind_ok _ _ _ _ _ (eq_refl : warn CountMissing st = (Ok tt, _))).
    rewrite (bind_ok _ _ _ _ _ (ret_run _ _)). by rewrite ret_run.
  - rewrite (bind_ok _ _ _ _ _ (ret_run _ _)).
    by rewrite (bind_raise _ _ _ ValueError st).
  - rewrite (bind_ok _ _ _ _ _ (ret_run _ _)).
    rewrite (bind_ok _ _ _ _ _ (ret_run _ _)).
    rewrite bind_run. unfold lift.
    destruct (py_int count) as [n|e]; [by rewrite ret_run|done].
Qed.

Lemma pdl_section_enter id kwargs ps st :
  enter (pdl_section id kwargs ps) st
  = (Ok (entered (pdl_section id kwargs ps)),
     State (stream st
              ++ EvBegin (Element "ProteinDetectionList"
                            (<["id" := id]> (delete "count" (delete "params" kwargs))))
                   true
                 :: (EvParam <$> ps))
       (<["ProteinDetectionList" :=
            <[element_id (Element "ProteinDetectionList"
                            (<["id" := id]> (delete "count" (delete "params" kwargs))))
              := id]>
              (Registry.category "ProteinDetectionList" (context st))]> (context st))
       (warnings st)).
Proof.
  rewrite plain_enter_run by done. rewrite base_enter_run.
  unfold section_element, has_id, context_created, with_context, add_events. simpl.
  rewrite lookup_insert_eq. rewrite bool_decide_eq_true_2 by eauto. reflexivity.
Qed.

End protein_detection_list_runs.

(** X6: a protein count given as the [count] argument alone becomes the
    last parameter of the section: the section is built without a warning,
    and entering it writes the prepared parameters followed by the count
    parameter. *)
Theorem protein_count_argument_is_last_param `{Components}
    (id count raw : value) (kwargs : gmap string value)
    (ps : list Param) (n : Z) (st : state) :
  prepare_params raw = Ok ps →
  existsb ProteinDetectionListSection.is_count_param ps = false →
  is_None count = false →
  py_int count = Ok n →
  ∃ s,
    MzIdentMLWriter.protein_detection_list id count raw kwargs st = (Ok s, st)
    ∧ params s = ps ++ [param "count of identified proteins" n]
    ∧ ∀ st1, ∃ ctx,
        enter s st1
        = (Ok (entered s),
           State (stream st1
                    ++ EvBegin (Element "ProteinDetectionList" (section_args s)) true
                       :: (EvParam <$> ps)
                       ++ [EvParam (param "count of identified proteins" n)])
             ctx (warnings st1)).
Proof.
  intros Hps Hparam Hcount Hint.
  eexists. split; [|split].
  - rewrite (pdl_run id count raw kwargs ps st Hps), Hcount, Hparam, Hint. reflexivity.
  - reflexivity.
  - intros st1. eexists. rewrite pdl_section_enter.
    rewrite fmap_app. reflexivity.
Qed.

(** X7: [protein_detection_list] gives its warning exactly when the count is
    neither an argument nor among the prepared parameters; whatever it
    returns or raises, it writes nothing and registers nothing. *)
Theorem protein_count_warning_iff_missing `{Components}
    (id count raw : value) (kwargs : gmap string value) (st : state) :
  let '(r, st') := MzIdentMLWriter.protein_detection_list id count raw kwargs st in
  stream st' = stream st
  ∧ context st' = context st
  ∧ warnings st'
    = warnings st
      ++ match prepare_params raw with
         | Ok ps =>
             if is_None count
                && negb (existsb ProteinDetectionListSection.is_count_param ps)
             then [CountMissing] else []
         | Raise _ => []
         end.
Proof.
  destruct (prepare_params raw) as [ps|e] eqn:Hps.
  - rewrite (pdl_run id count raw kwargs ps st Hps).
    destruct (is_None count), (existsb ProteinDetectionListSection.is_count_param ps);
      cbn [andb negb]; try (by rewrite app_nil_r).
    + done.
    + destruct (py_int count); by rewrite app_nil_r.
  - unfold MzIdentMLWriter.protein_detection_list, ProteinDetectionListSection.__init__.
    rewrite bind_run, init_run. cbv zeta. cbn [default from_option Datatypes.id].
    rewrite pdl_args_params. cbn [default from_option Datatypes.id].
    rewrite Hps. by rewrite app_nil_r.
Qed.



(** ** The spectrum identification list *)

Section spectrum_identification_list_runs.
Context `{Components}.

Lemma sil_run id measures ps st :
  prepare_params (VList []) = Ok ps →
  MzIdentMLWriter.spectrum_identification_list id measures st
  = (Ok (sil_section id
           (if is_None measures then VObj FragmentationTable else measures) ps), st).
Proof.
  intros Hps. unfold MzIdentMLWriter.spectrum_identification_list.
  set (table := if is_None measures then VObj FragmentationTable else measures).
  unfold SpectrumIdentficationListSection.__init__.
  rewrite bind_run, init_run. cbn [default from_option Datatypes.id]. cbv zeta.
  assert (Hargs : <["id" := id]> {[ "fragmentation_table" := table ]} ∪ ∅
                  = <["id" := id]> ({[ "fragmentation_table" := table ]}
                                      : gmap string value))
    by apply (right_id ∅ (∪)).
  rewrite Hargs.
  rewrite lookup_insert_ne by done. rewrite lookup_singleton_ne by done.
  cbn [default from_option Datatypes.id].
  rewrite Hps. rewrite ret_run.
  cbn [class section section_args params toplevel _context_manager].
  assert (Hlook : delete "params"
                    (<["id" := id]> ({[ "fragmentation_table" := table ]}
                                       : gmap string value))
                  !! "fragmentation_table" = Some table)
    by by simplify_map_eq.
  assert (Hrest : delete "fragmentation_table"
                    (delete "params"
                       (<["id" := id]> ({[ "fragmentation_table" := table ]}
                                          : gmap string value)))
                  = {[ "id" := id ]}).
  { apply map_eq. intros k.
    destruct (decide (k = "id")) as [->|Hid]; [by simplify_map_eq|].
    destruct (decide (k = "fragmentation_table")) as [->|Hf]; [by simplify_map_eq|].
    destruct (decide (k = "params")) as [->|Hp]; by simplify_map_eq. }
  rewrite Hlook, Hrest. reflexivity.
Qed.

(** The session once the element of [sil_section id table ps] is open and
    its parameters are written. *)
Lemma sil_base_enter id table ps st :
  DocumentSection.__enter__ (sil_section id table ps) st
  = (Ok (entered (sil_section id table ps)),
     State (stream st
              ++ EvBegin (Element "SpectrumIdentificationList" {[ "id" := id ]}) true
                 :: (EvParam <$> ps))
       (<["SpectrumIdentificationList" :=
            <[element_id (Element "SpectrumIdentificationList" {[ "id" := id ]}) := id]>
              (Registry.category "SpectrumIdentificationList" (context st))]> (context st))
       (warnings st)).
Proof.
  rewrite base_enter_run.
  unfold section_element, has_id, context_created, with_context, add_events. simpl.
  rewrite lookup_singleton_eq. rewrite bool_decide_eq_true_2 by eauto. reflexivity.
Qed.

End spectrum_identification_list_runs.

(** X10: a [measures] argument that is not [None] but counts as false
    (an empty list, an empty record, zero, an empty string) is kept as it
    is, not replaced by the default table, and no table is written: the body
    of the [with] block runs right after the open tag and the parameters. *)
Theorem falsy_measures_write_no_table `{Components} {A : Type}
    (id measures : value) (ps : list Param) (body : M A) (st : state) :
  prepare_params (VList []) = Ok ps →
  is_None measures = false →
  truthy measures = false →
  let el := Element "SpectrumIdentificationList" {[ "id" := id ]} in
  ∃ s,
    MzIdentMLWriter.spectrum_identification_list id measures st = (Ok s, st)
    ∧ fragmentation_table s = measures
    ∧ ∀ st1, ∃ ctx,
        py_with s body st1
        = let '(r, st2) :=
            body (State (stream st1 ++ EvBegin el true :: (EvParam <$> ps))
                    ctx (warnings st1)) in
          (r, State (stream st2 ++ [EvEnd el; EvFlush]) (context st2) (warnings st2)).
Proof.
  intros Hps Hnone Hfalse el.
  exists (sil_section id measures ps). split; [|split].
  - rewrite (sil_run id measures ps st Hps). by rewrite Hnone.
  - reflexivity.
  - intros st1.
    exists (<["SpectrumIdentificationList" :=
                <[element_id el := id]>
                  (Registry.category "SpectrumIdentificationList" (context st1))]>
              (context st1)).
    assert (Henter : enter (sil_section id measures ps) st1
                     = (Ok (entered (sil_section id measures ps)),
                        State (stream st1 ++ EvBegin el true :: (EvParam <$> ps))
                          (<["SpectrumIdentificationList" :=
                <[element_id el := id]>
                  (Registry.category "SpectrumIdentificationList" (context st1))]>
              (context st1))
                          (warnings st1))).
    { unfold enter. cbn [class sil_section].
      unfold SpectrumIdentficationListSection.__enter__.
      rewrite (bind_ok _ _ _ _ _ (sil_base_enter id measures ps st1)).
      cbn [fragmentation_table entered sil_section]. rewrite Hfalse.
      rewrite (bind_ok _ _ _ _ _ (ret_run _ _)). by rewrite ret_run. }
    rewrite (with_run _ body st1 _ Henter). reflexivity.
Qed.

(** X11: a [measures] argument that counts as true but is not a component
    (a non-empty list or record, a number, a string) makes entering the
    section fail with [AttributeError] after the element has been opened and
    the parameters written. The [with] block then runs neither the body nor
    [__exit__]: the element is left open on the stream. *)
Theorem non_component_measures_leave_element_open `{Components} {A : Type}
    (id measures : value) (ps : list Param) (body : M A) (st : state) :
  prepare_params (VList []) = Ok ps →
  truthy measures = true →
  (∀ c, measures ≠ VObj c) →
  let el := Element "SpectrumIdentificationList" {[ "id" := id ]} in
  ∃ s,
    MzIdentMLWriter.spectrum_identification_list id measures st = (Ok s, st)
    ∧ ∀ st1, ∃ ctx,
        py_with s body st1
        = (Raise AttributeError,
           State (stream st1 ++ EvBegin el true :: (EvParam <$> ps)) ctx (warnings st1))
        ∧ nesting [] (EvBegin el true :: (EvParam <$> ps))
          = Some ["SpectrumIdentificationList"%string].
Proof.
  intros Hps Htrue Hobj el.
  assert (Hnone : is_None measures = false).
  { destruct measures as [[]| | |]; try done. }
  exists (sil_section id measures ps). split.
  - rewrite (sil_run id measures ps st Hps). by rewrite Hnone.
  - intros st1.
    exists (<["SpectrumIdentificationList" :=
                <[element_id el := id]>
                  (Registry.category "SpectrumIdentificationList" (context st1))]>
              (context st1)).
    split.
    + unfold py_with, enter. cbn [class sil_section].
      unfold SpectrumIdentficationListSection.__enter__.
      rewrite (bind_ok _ _ _ _ _ (sil_base_enter id measures ps st1)).
      cbn [fragmentation_table entered sil_section]. rewrite Htrue.
      rewrite bind_run.
      destruct measures as [sc|l|d|c]; [| | |by destruct (Hobj c)]; reflexivity.
    + simpl. apply nesting_params.
Qed.

(** ** Validation comes before writing *)

Section quiet_facts.
Context `{Components}.

Lemma quiet_register cat k : quiet (register cat k).
Proof. intros st. by rewrite register_run. Qed.

Lemma quiet_bind {A B} (m : M A) (f : A → M B) :
  quiet m → (∀ a, quiet (f a)) → quiet (m ≫= f).
Proof.
  intros Hm Hf st. rewrite bind_run. specialize (Hm st).
  destruct (m st) as [[a|e] st1]; simpl in Hm; [|done].
  destruct (Hf a st1) as [Hs Hw]. by rewrite Hs, Hw.
Qed.

Lemma quiet_ret {A} (a : A) : quiet (mret a : M A).
Proof. by intros st. Qed.

Lemma quiet_raise {A} e : quiet (raise e : M A).
Proof. by intros st. Qed.

Lemma quiet_construct cat args kwargs : quiet (Component.construct cat args kwargs).
Proof.
  unfold Component.construct.
  destruct (Component.assoc "id" kwargs) as [[k| | |]|];
    try apply quiet_raise;
    (apply quiet_bind; [apply quiet_register | intros i; apply quiet_ret]).
Qed.

Lemma quiet_ensure cat raw : quiet (Component.ensure cat raw).
Proof.
  destruct raw as [sc|l|d|c]; simpl;
    [apply quiet_raise | apply quiet_raise | apply quiet_construct | apply quiet_ret].
Qed.

Lemma quiet_mapM {A B} (f : A → M B) l : (∀ x, quiet (f x)) → quiet (mapM f l).
Proof.
  intros Hf. induction l as [|x l IH]; simpl; [apply quiet_ret|].
  apply quiet_bind; [apply Hf|]. intros y.
  apply quiet_bind; [apply IH|]. intros ys. apply quiet_ret.
Qed.

Lemma quiet_ensure_each cat arg : quiet (MzIdentMLWriter.ensure_each cat arg).
Proof. apply quiet_mapM. intros x. apply quiet_ensure. Qed.

Lemma ensure_each_result cat arg st r st1 :
  MzIdentMLWriter.ensure_each cat arg st = (r, st1) →
  stream st1 = stream st ∧ warnings st1 = warnings st.
Proof. intros Hrun. pose proof (quiet_ensure_each cat arg st) as Hq. by rewrite Hrun in Hq. Qed.

End quiet_facts.


(** X13: [inputs] either fails having written nothing, or writes one
    [Inputs] element that holds one source file, one search database and one
    spectra data component for each record it was given, in that grouping. *)
Theorem inputs_all_or_nothing `{Components}
    (source_files search_databases spectra_data : value) (st : state) :
  let '(r, st') := Document.inputs source_files search_databases spectra_data st in
  warnings st' = warnings st
  ∧ match r with
    | Ok _ =>
        ∃ sf db sd,
          stream st' = stream st ++ [EvWrite (Document.Inputs sf db sd)]
          ∧ length sf = length (Component.ensure_iterable source_files)
          ∧ length db = length (Component.ensure_iterable search_databases)
          ∧ length sd = length (Component.ensure_iterable spectra_data)
    | Raise _ => stream st' = stream st
    end.
Proof.
  unfold Document.inputs.
  destruct (MzIdentMLWriter.ensure_each "SourceFile" source_files st)
    as [[sf|e] st1] eqn:Hsf;
    pose proof (ensure_each_result _ _ _ _ _ Hsf) as [Hs1 Hw1].
  2:{ by rewrite (bind_raise _ _ _ _ _ Hsf). }
  destruct (MzIdentMLWriter.ensure_each "SearchDatabase" search_databases st1)
    as [[db|e] st2] eqn:Hdb;
    pose proof (ensure_each_result _ _ _ _ _ Hdb) as [Hs2 Hw2].
  2:{ rewrite (bind_ok _ _ _ _ _ Hsf), (bind_raise _ _ _ _ _ Hdb). split; congruence. }
  destruct (MzIdentMLWriter.ensure_each "SpectraData" spectra_data st2)
    as [[sd|e] st3] eqn:Hsd;
    pose proof (ensure_each_result _ _ _ _ _ Hsd) as [Hs3 Hw3].
  2:{ rewrite (bind_ok _ _ _ _ _ Hsf), (bind_ok _ _ _ _ _ Hdb),
        (bind_raise _ _ _ _ _ Hsd).
      split; congruence. }
  rewrite (bind_ok _ _ _ _ _ Hsf), (bind_ok _ _ _ _ _ Hdb), (bind_ok _ _ _ _ _ Hsd).
  rewrite write_run. simpl. split; [congruence|].
  exists sf, db, sd. split; [by rewrite Hs3, Hs2, Hs1|].
  split; [by eapply ensure_each_length|].
  split; by eapply ensure_each_length.
Qed.

(** ** Controlled vocabularies *)

Lemma controlled_vocabularies_run given w :
  Document.controlled_vocabularies given w
  = (Ok tt,
     Document.Writer (Document.vocabularies w ++ default [] given)
       (add_events
          [EvWrite (Document.CVList (Document.vocabularies w ++ default [] given))]
          (Document.session w))).
Proof. reflexivity. Qed.

(** X14: the writer's vocabularies accumulate. After any number of calls of
    [controlled_vocabularies] the writer holds its first vocabularies followed
    by everything it was given, in order ([None] adds nothing), and every call
    has written one list: the [k]-th holds the first vocabularies and what
    the calls up to it were given. The registry and the warnings are as they
    were. *)
Theorem controlled_vocabularies_accumulate
    (calls : list (option (list value))) (w : Document.writer) :
  let w' := Document.controlled_vocabularies_each calls w in
  let upto k := Document.vocabularies w ++ concat (default [] <$> take k calls) in
  Document.vocabularies w' = upto (length calls)
  ∧ stream (Document.session w')
    = stream (Document.session w)
      ++ ((λ k, EvWrite (Document.CVList (upto (S k)))) <$> seq 0 (length calls))
  ∧ context (Document.session w') = context (Document.session w)
  ∧ warnings (Document.session w') = warnings (Document.session w).
Proof.
  revert w. induction calls as [|given calls IH]; intros w; cbv zeta.
  - simpl. by rewrite !app_nil_r.
  - cbn [Document.controlled_vocabularies_each]. rewrite controlled_vocabularies_run.
    cbn [snd]. destruct (IH (Document.Writer (Document.vocabularies w ++ default [] given)
                   (add_events
                      [EvWrite (Document.CVList
                                  (Document.vocabularies w ++ default [] given))]
                      (Document.session w)))) as (Hv & Hs & Hc & Hw).
    cbv zeta in Hv, Hs. cbn [Document.vocabularies Document.session] in Hv, Hs, Hc, Hw.
    split; [|split; [|split]].
    + rewrite Hv. simpl. by rewrite <- app_assoc.
    + rewrite Hs. unfold add_events. cbn [stream length seq fmap list_fmap].
      rewrite <- app_assoc. f_equal. simpl. rewrite app_nil_r. f_equal.
      rewrite <- fmap_S_seq, <- list_fmap_compose.
      apply list_fmap_ext. intros i k _. simpl. by rewrite <- app_assoc.
    + exact Hc.
    + exact Hw.
Qed.

(** ** Arguments of a section *)

(** X15: when a section is built from both a [section_args] dictionary and
    keyword arguments, a keyword argument wins over the entry of the same
    name, the other entries are kept, and [params] is taken out of the
    attributes whichever of the two it came from. *)
Theorem keyword_arguments_override_section_args `{Components}
    (cls : section_class) (tag : string)
    (sargs kwargs : gmap string value) (s : section_object) (st st' : state) :
  DocumentSection.__init__ cls tag (Some sargs) kwargs st = (Ok s, st') →
  section_args s !! "params" = None
  ∧ (∀ k, k ≠ "params" →
       section_args s !! k
       = match kwargs !! k with Some v => Some v | None => sargs !! k end)
  ∧ prepare_params
      (match kwargs !! "params" with
       | Some v => v
       | None => default (VList []) (sargs !! "params")
       end) = Ok (params s).
Proof.
  rewrite init_run. cbv zeta. cbn [default from_option Datatypes.id].
  assert (Hunion : ∀ k, (kwargs ∪ sargs) !! k
                        = match kwargs !! k with Some v => Some v | None => sargs !! k end).
  { intros k. rewrite lookup_union. by destruct (kwargs !! k), (sargs !! k). }
  rewrite (Hunion "params").
  destruct (kwargs !! "params") as [v|] eqn:Hk; cbn [default from_option Datatypes.id].
  - destruct (prepare_params v) as [ps|e] eqn:Hps; [|done].
    intros [= <- _]. cbn [section_args params].
    split; [apply lookup_delete_eq|]. split; [|done].
    intros k Hne. by rewrite lookup_delete_ne, Hunion.
  - destruct (prepare_params _) as [ps|e] eqn:Hps; [|done].
    intros [= <- _]. cbn [section_args params].
    split; [apply lookup_delete_eq|]. split; [|done].
    intros k Hne. by rewrite lookup_delete_ne, Hunion.
Qed.

(** ** The further properties on concrete sessions *)

Section further_examples.
Import Reference Scenario.
Local Existing Instance Reference.components.

Lemma with_keeps_stream_nested_witness :
  ∃ all,
    py_with data_section nested_body empty_state
    = (Raise (OtherError "accession is missing"), State all ∅ [])
    ∧ well_nested all.
Proof.
  pose (dc := Element "DataCollection" {[ "xmlns"%string := @_xmlns Reference.components ]}).
  pose (ad := Element "AnalysisData" {[ "xmlns"%string := @_xmlns Reference.components ]}).
  pose (written := [ EvBegin ad false;
                     EvWrite (Node "DBSequence" (VScalar (SStr "DBSeq_1")) [] []);
                     EvEnd ad; EvFlush ]).
  assert (Hwritten : well_nested written).
  { intros open. reflexivity. }
  destruct (@with_keeps_stream_nested Reference.components unit
              data_section (entered data_section) nested_body
              (Raise (OtherError "accession is missing"))
              empty_state (State [EvBegin dc false] ∅ [])
              (State (EvBegin dc false :: written) ∅ []) written
              eq_refl eq_refl eq_refl Hwritten) as (all & Hrun & Hall).
  exists all. split; [exact Hrun | exact Hall].
Defined.

Lemma exit_before_enter_raises_witness :
  DocumentSection.__exit__ sequence_section None empty_state
  = (Raise AttributeError, empty_state).
Proof.
  exact (@exit_before_enter_raises Reference.components None
           {[ "xmlns"%string := @_xmlns Reference.components ]}
           PlainSection "SequenceCollection" sequence_section empty_state empty_state
           (or_introl eq_refl) None empty_state).
Defined.

Lemma enter_records_one_entry_witness :
  Registry.category "ProteinDetectionList"
    (context (DocumentSection.__enter__ detection_section empty_state).2)
    !! SInt 1 = Some (VScalar (SInt 1)).
Proof.
  match goal with
  | |- ?G =>
      exact (proj1 (@enter_records_one_entry Reference.components detection_section
                      (VScalar (SInt 1)) empty_state eq_refl eq_refl) <: G)
  end.
Defined.

Lemma collection_section_registers_nothing_witness :
  ∃ s, MzIdentMLWriter.plain_section "SequenceCollection" empty_state
       = (Ok s, empty_state).
Proof.
  destruct (@collection_section_registers_nothing Reference.components unit
              "SequenceCollection" [] failing_body empty_state eq_refl)
    as (s & Hrun & _).
  exists s. exact Hrun.
Defined.

Lemma protein_count_argument_is_last_param_witness :
  ∃ s,
    MzIdentMLWriter.protein_detection_list (VScalar (SInt 1)) (VScalar (SInt 10))
      VNone ∅ empty_state
    = (Ok s, empty_state)
    ∧ params s = [mkParam (SStr "MS:1002404") "count of identified proteins"
                    (VScalar (SInt 10))].
Proof.
  destruct (@protein_count_argument_is_last_param Reference.components
              (VScalar (SInt 1)) (VScalar (SInt 10)) VNone ∅ [] 10%Z empty_state
              eq_refl eq_refl eq_refl eq_refl) as (s & Hrun & Hps & _).
  exists s. split; [exact Hrun | exact Hps].
Defined.



Lemma falsy_measures_write_no_table_witness :
  ∃ s,
    MzIdentMLWriter.spectrum_identification_list (VScalar (SInt 1)) (VList [])
      empty_state
    = (Ok s, empty_state)
    ∧ fragmentation_table s = VList [].
Proof.
  destruct (@falsy_measures_write_no_table Reference.components unit
              (VScalar (SInt 1)) (VList []) [] failing_body empty_state
              eq_refl eq_refl eq_refl) as (s & Hrun & Htable & _).
  exists s. split; [exact Hrun | exact Htable].
Defined.

Lemma non_component_measures_leave_element_open_witness :
  ∃ s,
    MzIdentMLWriter.spectrum_identification_list (VScalar (SInt 1))
      (VList [VScalar (SStr "product ion m/z")]) empty_state
    = (Ok s, empty_state)
    ∧ ∃ ctx,
        py_with s failing_body empty_state
        = (Raise AttributeError,
           State [EvBegin (Element "SpectrumIdentificationList"
                             {[ "id"%string := VScalar (SInt 1) ]}) true]
             ctx []).
Proof.
  destruct (@non_component_measures_leave_element_open Reference.components unit
              (VScalar (SInt 1)) (VList [VScalar (SStr "product ion m/z")]) []
              failing_body empty_state eq_refl eq_refl
              (λ c Heq, eq_ind (VList [VScalar (SStr "product ion m/z")])
                          (λ v, match v with VList _ => True | _ => False end)
                          I _ Heq))
    as (s & Hrun & Hwith).
  exists s. split; [exact Hrun|].
  destruct (Hwith empty_state) as (ctx & Hpy & _).
  exists ctx. exact Hpy.
Defined.

Lemma keyword_arguments_override_section_args_witness :
  let s := SectionObject PlainSection "Inputs" {[ "id"%string := VScalar (SInt 2) ]}
             [] None None VNone in
  DocumentSection.__init__ PlainSection "Inputs"
    (Some {[ "id"%string := VScalar (SInt 1) ]})
    {[ "id"%string := VScalar (SInt 2) ]} empty_state
  = (Ok s, empty_state)
  ∧ section_args s !! "id" = Some (VScalar (SInt 2)).
Proof.
  intros s.
  assert (Hrun : DocumentSection.__init__ PlainSection "Inputs"
                   (Some {[ "id"%string := VScalar (SInt 1) ]})
                   {[ "id"%string := VScalar (SInt 2) ]} empty_state
                 = (Ok s, empty_state)).
  { vm_compute. reflexivity. }
  split; [exact Hrun|].
  destruct (@keyword_arguments_override_section_args Reference.components
              PlainSection "Inputs" {[ "id"%string := VScalar (SInt 1) ]}
              {[ "id"%string := VScalar (SInt 2) ]} s empty_state empty_state Hrun)
    as (_ & Hk & _).
  rewrite (Hk "id"%string) by discriminate. reflexivity.
Defined.

End further_examples.
